(** * Voice command pipeline of the heart-health application

    A shallow embedding of the two voice front ends of the repository:

    - [EnhancedVoiceUI]: the "Enhanced Voice UI" screen
      (src/unnamed/part_000), whose [voiceCommands] table pairs a
      case-insensitive regular expression with an action name;
    - [VoiceAssistant]: the "AI Health Coach" screen
      (src/frontend/app/voice-assistant.tsx), whose [voiceCommands] table
      pairs a command phrase with a closure.

    JavaScript strings are modelled as [string]: a sequence of code units
    in the range U+0000..U+00FF.  On that range [toLowerCase], [trim],
    [includes] and the [RegExp] operations used by the sources are defined
    unit by unit, as ECMAScript specifies them.  The module [Wide] adds the
    one code unit beyond the range that the command table can tell from
    its lower case, the Kelvin sign U+212A.

    The handlers of a React component are closures of the render that made
    them.  On the Enhanced Voice UI screen they read state variables, so
    they take the render they belong to as an argument: the first render
    for what the speech recogniser calls, the current one for a button. *)

From Stdlib Require Import List String Ascii Bool Arith NArith ZArith QArith Lia.
From Stdlib Require Import Qround Lqa DecimalString.
Import ListNotations.

Local Open Scope string_scope.
Local Open Scope bool_scope.

(* ================================================================== *)
(** ** JavaScript string primitives *)
(* ================================================================== *)

Module JS.

(** The code unit of a character. *)
Definition code (c : ascii) : N := N_of_ascii c.

Definition in_range (lo hi : N) (c : ascii) : bool :=
  ((lo <=? code c) && (code c <=? hi))%N.

(** Upper-case letters of the range: A-Z, and U+00C0..U+00DE except the
    multiplication sign U+00D7. *)
Definition is_upper (c : ascii) : bool :=
  in_range 65 90 c || (in_range 192 222 c && negb (code c =? 215)%N).

(** [String.prototype.toLowerCase], one code unit. *)
Definition lower_unit (c : ascii) : ascii :=
  if is_upper c then ascii_of_N (code c + 32) else c.

(** [String.prototype.toLowerCase]. *)
Fixpoint toLowerCase (s : string) : string :=
  match s with
  | EmptyString => EmptyString
  | String c s' => String (lower_unit c) (toLowerCase s')
  end.

(** WhiteSpace and LineTerminator code units: TAB, LF, VT, FF, CR, SP and
    NBSP. *)
Definition white_units : list ascii :=
  map ascii_of_N [9; 10; 11; 12; 13; 32; 160]%N.

Definition is_white (c : ascii) : bool :=
  existsb (Ascii.eqb c) white_units.

Fixpoint trimStart (s : string) : string :=
  match s with
  | EmptyString => EmptyString
  | String c s' => if is_white c then trimStart s' else s
  end.

Fixpoint trimEnd (s : string) : string :=
  match s with
  | EmptyString => EmptyString
  | String c s' =>
      match trimEnd s' with
      | EmptyString => if is_white c then EmptyString else String c EmptyString
      | t => String c t
      end
  end.

(** [String.prototype.trim]. *)
Definition trim (s : string) : string := trimEnd (trimStart s).

(** [s.includes(sub)]: [sub] occurs in [s] at some index. *)
Fixpoint includes (s sub : string) : bool :=
  prefix sub s ||
  match s with
  | EmptyString => false
  | String _ s' => includes s' sub
  end.

(** [s.replace(pat, by)] with a string pattern: the first occurrence only. *)
Fixpoint replace (s pat by_ : string) : string :=
  if prefix pat s then by_ ++ substring (String.length pat) (String.length s) s
  else match s with
       | EmptyString => EmptyString
       | String c s' => String c (replace s' pat by_)
       end.

(** Template rendering of an integer-valued number. *)
Definition show_int (z : Z) : string := NilZero.string_of_int (Z.to_int z).

(** [xs[i]] for a number [i] that is an integer: [undefined] outside the
    array. *)
Definition array_get {A : Type} (xs : list A) (i : Z) : option A :=
  match i with
  | Zneg _ => None
  | _ => nth_error xs (Z.to_nat i)
  end.

(** A possibly undefined string inside a template literal. *)
Definition interpolate (o : option string) : string :=
  match o with
  | Some s => s
  | None => "undefined"
  end.

(** [Math.floor(x)] *)
Definition floor (x : Q) : Z := Qfloor x.

End JS.

(* ================================================================== *)
(** ** Regular expressions *)
(* ================================================================== *)

Module RegExp.

(** The fragment of the pattern syntax the command table uses: literal
    characters, [.], [*], concatenation and [|]. *)
Inductive regex : Type :=
| Void : regex
| Eps : regex
| Chr : ascii -> regex
| Dot : regex
| Star : regex -> regex
| Cat : regex -> regex -> regex
| Alt : regex -> regex -> regex.

(** A [RegExp] object: its pattern and its [i] flag.  No pattern of the
    sources has the [g] or [y] flag, so [test] keeps no [lastIndex]. *)
Record t : Type := mk { source : regex; ignoreCase : bool }.

(** A literal run of characters. *)
Fixpoint lit (s : string) : regex :=
  match s with
  | EmptyString => Eps
  | String c EmptyString => Chr c
  | String c s' => Cat (Chr c) (lit s')
  end.

(** [a.*b] *)
Definition gap (a b : string) : regex := Cat (lit a) (Cat (Star Dot) (lit b)).

(** [r1|r2|r3] *)
Definition alt3 (r1 r2 r3 : regex) : regex := Alt r1 (Alt r2 r3).

(** Canonicalize of the non-Unicode case-insensitive mode: the upper-case
    mapping of the code unit when that is a single code unit, except that
    a unit above U+007F is never mapped into ASCII.  U+00FF maps to U+0178
    and U+00B5 to U+039C, outside the range of [ascii]: the result is a
    code unit number. *)
Definition canonicalize (c : ascii) : N :=
  let n := JS.code c in
  if JS.in_range 97 122 c then (n - 32)%N
  else if JS.in_range 224 254 c && negb (n =? 247)%N then (n - 32)%N
  else if (n =? 255)%N then 376%N
  else if (n =? 181)%N then 924%N
  else n.

(** A pattern character against a character of the input. *)
Definition chr_match (i : bool) (p c : ascii) : bool :=
  if i then (canonicalize p =? canonicalize c)%N else Ascii.eqb p c.

(** [.] matches every code unit but a line terminator (LF, CR). *)
Definition dot_match (c : ascii) : bool :=
  negb ((JS.code c =? 10)%N || (JS.code c =? 13)%N).

Fixpoint nullable (r : regex) : bool :=
  match r with
  | Void => false
  | Eps => true
  | Chr _ => false
  | Dot => false
  | Star _ => true
  | Cat r1 r2 => nullable r1 && nullable r2
  | Alt r1 r2 => nullable r1 || nullable r2
  end.

(** Brzozowski derivative of [r] by the input character [c]. *)
Fixpoint deriv (i : bool) (c : ascii) (r : regex) : regex :=
  match r with
  | Void => Void
  | Eps => Void
  | Chr p => if chr_match i p c then Eps else Void
  | Dot => if dot_match c then Eps else Void
  | Star r1 => Cat (deriv i c r1) (Star r1)
  | Cat r1 r2 =>
      if nullable r1
      then Alt (Cat (deriv i c r1) r2) (deriv i c r2)
      else Cat (deriv i c r1) r2
  | Alt r1 r2 => Alt (deriv i c r1) (deriv i c r2)
  end.

(** The whole of [s] matches [r]. *)
Fixpoint full_match (i : bool) (r : regex) (s : string) : bool :=
  match s with
  | EmptyString => nullable r
  | String c s' => full_match i (deriv i c r) s'
  end.

(** Some prefix of [s] matches [r]: a match that starts at index 0. *)
Fixpoint match_here (i : bool) (r : regex) (s : string) : bool :=
  nullable r ||
  match s with
  | EmptyString => false
  | String c s' => match_here i (deriv i c r) s'
  end.

(** A match of [r] starts at some index of [s]. *)
Fixpoint search (i : bool) (r : regex) (s : string) : bool :=
  match_here i r s ||
  match s with
  | EmptyString => false
  | String _ s' => search i r s'
  end.

(** [RegExp.prototype.test]. *)
Definition test (re : t) (s : string) : bool :=
  search (ignoreCase re) (source re) s.

(** A string without line terminator: what [.*] can run over. *)
Fixpoint one_line (s : string) : bool :=
  match s with
  | EmptyString => true
  | String c s' => dot_match c && one_line s'
  end.

(** The words of a pattern, against which the matcher is checked. *)
Inductive lang (i : bool) : regex -> string -> Prop :=
| lang_eps : lang i Eps ""
| lang_chr p c : chr_match i p c = true -> lang i (Chr p) (String c "")
| lang_dot c : dot_match c = true -> lang i Dot (String c "")
| lang_star_nil r : lang i (Star r) ""
| lang_star_app r s1 s2 :
    lang i r s1 -> lang i (Star r) s2 -> lang i (Star r) (s1 ++ s2)
| lang_cat r1 r2 s1 s2 :
    lang i r1 s1 -> lang i r2 s2 -> lang i (Cat r1 r2) (s1 ++ s2)
| lang_alt_l r1 r2 s : lang i r1 s -> lang i (Alt r1 r2) s
| lang_alt_r r1 r2 s : lang i r2 s -> lang i (Alt r1 r2) s.



End RegExp.

(* ================================================================== *)
(** ** The Enhanced Voice UI screen (src/unnamed/part_000) *)
(* ================================================================== *)

Module EnhancedVoiceUI.

Import RegExp.

Record VoiceCommand : Type := {
  pattern : RegExp.t;
  action : string;
  description : string
}.

(** [/a.*b|c.*d|e.*f/i] and the like, as written in the table. *)
Definition i_ (r : regex) : RegExp.t := RegExp.mk r true.

Definition voiceCommands : list VoiceCommand :=
  [ (* /show.*risk|what.*risk|current.*risk/i *)
    {| pattern := i_ (alt3 (gap "show" "risk") (gap "what" "risk") (gap "current" "risk"));
       action := "show_risk"; description := "Show current risk levels" |};
    (* /start.*assessment|new.*assessment|take.*test/i *)
    {| pattern := i_ (alt3 (gap "start" "assessment") (gap "new" "assessment") (gap "take" "test"));
       action := "start_assessment"; description := "Start new assessment" |};
    (* /explain.*result|what.*mean|help.*understand/i *)
    {| pattern := i_ (alt3 (gap "explain" "result") (gap "what" "mean") (gap "help" "understand"));
       action := "explain_results"; description := "Explain risk results" |};
    (* /medication.*remind|take.*medicine|pills/i *)
    {| pattern := i_ (alt3 (gap "medication" "remind") (gap "take" "medicine") (lit "pills"));
       action := "medication_reminder"; description := "Set medication reminder" |};
    (* /emergency|help.*urgent|call.*doctor/i *)
    {| pattern := i_ (alt3 (lit "emergency") (gap "help" "urgent") (gap "call" "doctor"));
       action := "emergency_help"; description := "Emergency assistance" |};
    (* /next.*question|continue|proceed/i *)
    {| pattern := i_ (alt3 (gap "next" "question") (lit "continue") (lit "proceed"));
       action := "next_question"; description := "Continue to next question" |};
    (* /repeat.*result|say.*again|repeat/i *)
    {| pattern := i_ (alt3 (gap "repeat" "result") (gap "say" "again") (lit "repeat"));
       action := "repeat_last"; description := "Repeat last result" |};
    (* /lifestyle.*tip|health.*advice|improve.*health/i *)
    {| pattern := i_ (alt3 (gap "lifestyle" "tip") (gap "health" "advice") (gap "improve" "health"));
       action := "lifestyle_tips"; description := "Get health tips" |};
    (* /stop.*listening|pause|quiet/i *)
    {| pattern := i_ (alt3 (gap "stop" "listening") (lit "pause") (lit "quiet"));
       action := "stop_listening"; description := "Stop voice assistant" |} ].

(** [voiceCommands.find(cmd => cmd.pattern.test(transcript))] *)
Definition matchedCommand (transcript : string) : option VoiceCommand :=
  find (fun cmd => RegExp.test (pattern cmd) transcript) voiceCommands.

Inductive Role : Type := user | assistant.

(** ['low' | 'medium' | 'high'] *)
Inductive Severity : Type := low | medium | high.

(** ['medication' | 'risk_change' | 'emergency' | 'reminder'] *)
Inductive AlertType : Type := medication | risk_change | emergency | reminder.

(** ['improving' | 'stable' | 'worsening'] *)
Inductive Trend : Type := improving | stable | worsening.


Definition trend_tag (t : Trend) : string :=
  match t with
  | improving => "improving" | stable => "stable" | worsening => "worsening"
  end.

Module VoiceMessage.
Record t : Type := {
  id : string;
  role : Role;
  text : string;
  timestamp : N;
  confidence : option Q
}.
End VoiceMessage.

Module HealthAlert.
Record t : Type := {
  id : string;
  text : string;
  severity : Severity;
  timestamp : N;
  type : AlertType
}.
End HealthAlert.

(** The numbers are the rounded percentages [fetchLatestRiskData] stores. *)
Record RiskData : Type := {
  overall_score : Z;
  heart_attack : Z;
  stroke : Z;
  heart_failure : Z;
  arrhythmia : Z;
  last_updated : string;
  trend : Trend
}.

(** What a command reads from outside the component: the clock of
    [Date.now()] and the draw of [Math.random()], a number of [0, 1). *)
Record Env : Type := { now : N; random : Q }.

(** The component state, with the queue of the speech synthesizer
    ([synth]: there is one) and the pushes on the router.  The updates of
    the handlers are functions of the previous value and apply to this
    state; [synth] is a ref, read as it is now. *)
Record State : Type := {
  voiceMessages : list VoiceMessage.t;
  healthAlerts : list HealthAlert.t;
  riskData : option RiskData;
  isListening : bool;
  isProcessing : bool;
  synth : bool;
  utterances : list string;
  route : list string
}.

Definition setVoiceMessages (f : list VoiceMessage.t -> list VoiceMessage.t)
    (st : State) : State :=
  {| voiceMessages := f (voiceMessages st); healthAlerts := healthAlerts st;
     riskData := riskData st; isListening := isListening st;
     isProcessing := isProcessing st; synth := synth st;
     utterances := utterances st; route := route st |}.

Definition setHealthAlerts (f : list HealthAlert.t -> list HealthAlert.t)
    (st : State) : State :=
  {| voiceMessages := voiceMessages st; healthAlerts := f (healthAlerts st);
     riskData := riskData st; isListening := isListening st;
     isProcessing := isProcessing st; synth := synth st;
     utterances := utterances st; route := route st |}.

Definition setIsListening (b : bool) (st : State) : State :=
  {| voiceMessages := voiceMessages st; healthAlerts := healthAlerts st;
     riskData := riskData st; isListening := b;
     isProcessing := isProcessing st; synth := synth st;
     utterances := utterances st; route := route st |}.

Definition setIsProcessing (b : bool) (st : State) : State :=
  {| voiceMessages := voiceMessages st; healthAlerts := healthAlerts st;
     riskData := riskData st; isListening := isListening st;
     isProcessing := b; synth := synth st;
     utterances := utterances st; route := route st |}.

Definition setUtterances (f : list string -> list string) (st : State) : State :=
  {| voiceMessages := voiceMessages st; healthAlerts := healthAlerts st;
     riskData := riskData st; isListening := isListening st;
     isProcessing := isProcessing st; synth := synth st;
     utterances := f (utterances st); route := route st |}.

Definition router_push (path : string) (st : State) : State :=
  {| voiceMessages := voiceMessages st; healthAlerts := healthAlerts st;
     riskData := riskData st; isListening := isListening st;
     isProcessing := isProcessing st; synth := synth st;
     utterances := utterances st; route := (route st ++ [path])%list |}.

(** What the handlers of one render read.  The handlers are closures of
    the render that made them: inside them [voiceMessages], [riskData] and
    [isListening] are the values that render had, whatever the state has
    become since. *)
Module Render.
Record t : Type := {
  voiceMessages : list VoiceMessage.t;
  riskData : option RiskData;
  isListening : bool
}.
End Render.

(** The render of a state: what a handler reads when it is called from
    the screen as it shows, by a button. *)
Definition render (st : State) : Render.t :=
  {| Render.voiceMessages := voiceMessages st;
     Render.riskData := riskData st;
     Render.isListening := isListening st |}.

(** The first render: [useState] starts with no message, no risk data and
    [isListening] false.  The effect of the mount ([useEffect] with no
    dependency) runs once, after this render, and it is the handlers of
    this render that it installs on the recogniser. *)
Definition mount : Render.t :=
  {| Render.voiceMessages := []; Render.riskData := None;
     Render.isListening := false |}.

(** [speak]: a high priority cancels what the synthesizer holds.  The
    priority is ['low' | 'high'], two of the severity tags. *)
Definition speak (text : string) (priority : Severity) (st : State) : State :=
  if synth st then
    setUtterances (fun q => (match priority with high => [] | _ => q end) ++ [text])%list st
  else st.

(** [addVoiceMessage]: assistant messages are spoken at low priority. *)
Definition addVoiceMessage (env : Env) (role : Role) (text : string)
    (confidence : option Q) (st : State) : State :=
  let message :=
    {| VoiceMessage.id := JS.show_int (Z.of_N (now env));
       VoiceMessage.role := role;
       VoiceMessage.text := text;
       VoiceMessage.timestamp := now env;
       VoiceMessage.confidence := confidence |} in
  let st := setVoiceMessages (fun prev => prev ++ [message])%list st in
  match role with
  | assistant => speak text low st
  | user => st
  end.

(** [addHealthAlert]: the newest alert first, five kept; a high severity is
    spoken at once. *)
Definition addHealthAlert (env : Env) (text : string) (severity : Severity)
    (type : AlertType) (st : State) : State :=
  let alert :=
    {| HealthAlert.id := JS.show_int (Z.of_N (now env));
       HealthAlert.text := text;
       HealthAlert.severity := severity;
       HealthAlert.timestamp := now env;
       HealthAlert.type := type |} in
  let st := setHealthAlerts (fun prev => alert :: firstn 4 prev) st in
  match severity with
  | high => speak ("Important alert: " ++ text) high st
  | _ => st
  end.

(** [stopListening]: the recogniser is stopped when the render of the
    handler had [isListening]; stopping it ends in its [onend], which
    clears [isListening]. *)
Definition stopListening (r : Render.t) (st : State) : State :=
  if Render.isListening r then setIsListening false st else st.

Definition no_risk_data_message : string :=
  "I don't have your current risk data available. Would you like to start a new assessment to get updated risk calculations?".

Definition showCurrentRisk (r : Render.t) (env : Env) (st : State) : State :=
  match Render.riskData r with
  | Some d =>
      let response :=
        "Your overall cardiovascular risk score is " ++ JS.show_int (overall_score d)
        ++ "%. Breaking this down: Heart attack risk is " ++ JS.show_int (heart_attack d)
        ++ "%, stroke risk is " ++ JS.show_int (stroke d)
        ++ "%, heart failure risk is " ++ JS.show_int (heart_failure d)
        ++ "%, and arrhythmia risk is " ++ JS.show_int (arrhythmia d)
        ++ "%. Your risk trend is currently " ++ trend_tag (trend d)
        ++ ". Would you like me to explain what these numbers mean?" in
      addVoiceMessage env assistant response None st
  | None => addVoiceMessage env assistant no_risk_data_message None st
  end.

Definition explainLatestResults (env : Env) (st : State) : State :=
  addVoiceMessage env assistant
    "Your cardiovascular risk assessment uses advanced machine learning to analyze over 20 health factors. The system looks at things like your age, blood pressure, cholesterol levels, family history, lifestyle habits, and more. Each factor is weighted based on medical research to give you personalized risk predictions. The percentages tell you your statistical likelihood of developing each condition. Would you like me to focus on any specific risk factor?"
    None st.

(** [voiceMessages.filter(m => m.role === 'assistant').pop()] *)
Definition lastAssistantMessage (r : Render.t) : option VoiceMessage.t :=
  last (map Some
         (filter (fun m => match VoiceMessage.role m with
                           | assistant => true | user => false end)
                 (Render.voiceMessages r)))
       None.

Definition nothing_to_repeat_message : string :=
  "I don't have a previous result to repeat. Would you like me to show your current risk levels?".

Definition repeatLastResult (r : Render.t) (env : Env) (st : State) : State :=
  match lastAssistantMessage r with
  | Some m =>
      addVoiceMessage env assistant ("I'll repeat that: " ++ VoiceMessage.text m) None st
  | None => addVoiceMessage env assistant nothing_to_repeat_message None st
  end.

Definition tips : list string :=
  [ "Regular exercise for at least 30 minutes, 5 days a week can significantly reduce your cardiovascular risk.";
    "A Mediterranean-style diet rich in fruits, vegetables, whole grains, and healthy fats is excellent for heart health.";
    "Managing stress through meditation, yoga, or other relaxation techniques can lower your blood pressure.";
    "Getting 7-9 hours of quality sleep each night is crucial for heart health.";
    "If you smoke, quitting is the single most important thing you can do for your cardiovascular health." ].

(** [tips[Math.floor(Math.random() * tips.length)]], the product taken
    exactly. *)
Definition randomTip (env : Env) : option string :=
  JS.array_get tips (JS.floor (random env * inject_Z (Z.of_nat (List.length tips)))).

Definition tip_message (tip : string) : string :=
  "Here's a personalized health tip: " ++ tip
  ++ " Would you like more specific advice for your situation?".

Definition provideLifestyleTips (env : Env) (st : State) : State :=
  addVoiceMessage env assistant (tip_message (JS.interpolate (randomTip env))) None st.

(** [riskData?.field || fallback] inside a template: a missing record and
    a zero both give the fallback word. *)
Definition level_or (field : RiskData -> Z) (fallback : string) (r : Render.t) : string :=
  match Render.riskData r with
  | Some d => if (field d =? 0)%Z then fallback else JS.show_int (field d)
  | None => fallback
  end.

Definition generic_message : string :=
  "I'm here to help with your heart health questions. You can ask me about your risk levels, request health tips, start a new assessment, or ask for explanations of your results. What would you like to know?".

Definition processNaturalLanguageQuery (r : Render.t) (env : Env) (query : string)
    (st : State) : State :=
  let lowerQuery := JS.toLowerCase query in
  if JS.includes lowerQuery "heart attack" then
    addVoiceMessage env assistant
      ("Based on your latest assessment, your heart attack risk is "
       ++ level_or heart_attack "moderate" r
       ++ " level. This is calculated using multiple factors including your age, lifestyle, and medical history. Would you like me to explain which factors are contributing most to this risk?")
      None st
  else if JS.includes lowerQuery "stroke" then
    addVoiceMessage env assistant
      ("Your stroke risk is currently " ++ level_or stroke "low" r
       ++ " level. Key factors that influence stroke risk include blood pressure, age, and lifestyle habits. Keep up the good work managing your cardiovascular health!")
      None st
  else if JS.includes lowerQuery "improve" || JS.includes lowerQuery "better" then
    provideLifestyleTips env st
  else
    addVoiceMessage env assistant generic_message None st.

Definition emergency_message : string :=
  "If you're experiencing a medical emergency, please call 911 immediately. For non-urgent medical questions, contact your healthcare provider.".

(** The [switch] on the action name; an unlisted name takes the [default]
    branch. *)
Definition executeVoiceAction (r : Render.t) (env : Env) (action : string)
    (transcript : string) (st : State) : State :=
  if action =? "show_risk" then showCurrentRisk r env st
  else if action =? "start_assessment" then
    router_push "/assessment"
      (addVoiceMessage env assistant "Starting a new heart health assessment for you." None st)
  else if action =? "explain_results" then explainLatestResults env st
  else if action =? "medication_reminder" then
    addVoiceMessage env assistant
      "I've added a medication reminder for you. Don't forget to take your prescribed heart medication."
      None
      (addHealthAlert env "Reminder: Take your prescribed heart medication" medium medication st)
  else if action =? "emergency_help" then
    addHealthAlert env "Emergency resources available if needed" high emergency
      (addVoiceMessage env assistant emergency_message None st)
  else if action =? "next_question" then
    addVoiceMessage env assistant
      "Let's continue. What else would you like to know about your heart health?" None st
  else if action =? "repeat_last" then repeatLastResult r env st
  else if action =? "lifestyle_tips" then provideLifestyleTips env st
  else if action =? "stop_listening" then
    addVoiceMessage env assistant "Voice assistant paused. Tap the microphone to resume."
      None (stopListening r st)
  else processNaturalLanguageQuery r env transcript st.

(** [processVoiceCommand] of the render [r].  No operation of the handlers
    can throw (string methods on strings, array reads, field reads behind
    [if (riskData)]), so the [catch] branch is not reached and the
    [finally] always runs. *)
Definition processVoiceCommand (r : Render.t) (env : Env) (transcript : string)
    (st : State) : State :=
  let st := setIsProcessing true st in
  let st :=
    match matchedCommand transcript with
    | Some cmd => executeVoiceAction r env (action cmd) transcript st
    | None => processNaturalLanguageQuery r env transcript st
    end in
  setIsProcessing false st.

(** *** The pipeline as the specification names it *)

(** The intents the specification lists. *)
Definition intents : list string :=
  [ "show_risk"; "explain_results"; "start_assessment"; "health_tips";
    "medication_reminder"; "emergency_help"; "next_question"; "repeat_last";
    "lifestyle_tips"; "unknown" ].

(** The intent of a transcript: the action of the command found, and
    [unknown], the name the specification has for it, when none is found
    (the source then goes to [processNaturalLanguageQuery]). *)
Definition intent (transcript : string) : string :=
  match matchedCommand transcript with
  | Some cmd => action cmd
  | None => "unknown"
  end.

(** Modelled from the spec: the confidence of a rule.  The command table of
    the source has no confidence column; the specification gives every
    rule a fixed constant, 0.9 for a phrase rule, and the no-match outcome
    the fixed low value 0.3. *)
Definition base_confidence (cmd : VoiceCommand) : Q := 9 # 10.

(** Modelled from the spec: the confidence of the no-match outcome, "a
    low fixed confidence (e.g. 0.3)"; the source has none. *)
Definition unknown_confidence : Q := 3 # 10.

(** The classifier of the specification, [classify(text) -> (intent,
    confidence)], over the command table of the source. *)
Definition classify (transcript : string) : string * Q :=
  match matchedCommand transcript with
  | Some cmd => (action cmd, base_confidence cmd)
  | None => ("unknown", unknown_confidence)
  end.

(** The keyword branches of [processNaturalLanguageQuery] that come before
    its generic answer. *)
Definition query_keywords : list string := ["heart attack"; "stroke"; "improve"; "better"].

(** The transcripts whose answer is drawn by [provideLifestyleTips]: the
    [lifestyle_tips] command, and the unmatched queries that reach the
    [improve]/[better] branch. *)
Definition samples_tip (transcript : string) : bool :=
  let q := JS.toLowerCase transcript in
  (intent transcript =? "lifestyle_tips")
  || ((intent transcript =? "unknown")
      && negb (JS.includes q "heart attack") && negb (JS.includes q "stroke")
      && (JS.includes q "improve" || JS.includes q "better")).

(** A message and an alert as a listener has them, without identifier and
    time. *)
Definition message_view (m : VoiceMessage.t) : Role * string * option Q :=
  (VoiceMessage.role m, VoiceMessage.text m, VoiceMessage.confidence m).

Definition alert_view (a : HealthAlert.t) : string * Severity * AlertType :=
  (HealthAlert.text a, HealthAlert.severity a, HealthAlert.type a).

(** The state without identifiers and times. *)
Definition view (st : State) :=
  (map message_view (voiceMessages st), map alert_view (healthAlerts st),
   riskData st, isListening st, isProcessing st, synth st, utterances st, route st).

(** The state without identifiers, times and the wording of what is said. *)
Definition shape (st : State) :=
  (map (fun m => (VoiceMessage.role m, VoiceMessage.confidence m)) (voiceMessages st),
   map alert_view (healthAlerts st),
   riskData st, isListening st, isProcessing st, synth st, route st).

(** The answer of a command: the text of the newest message. *)
Definition response_text (st : State) : option string :=
  option_map VoiceMessage.text (last (map Some (voiceMessages st)) None).


(** A fresh screen on which the recogniser listens: nothing said, no
    alert, no risk data fetched. *)
Definition fresh : State :=
  {| voiceMessages := []; healthAlerts := []; riskData := None;
     isListening := true; isProcessing := false; synth := true;
     utterances := []; route := [] |}.

(** *** The rest of the screen: recognition events, the fetch of the risk
    data and the quick actions *)

(** One result of a recognition event: its first alternative, and whether
    the result is final. *)
Module Result.
Record t : Type := { transcript : string; isFinal : bool; confidence : Q }.
End Result.

Record SpeechEvent : Type := { resultIndex : nat; results : list Result.t }.

(** The loop of [onresult]: the transcripts of the results from
    [resultIndex] on that are final (or that are not), joined. *)
Definition joined (final : bool) (ev : SpeechEvent) : string :=
  String.concat ""
    (map Result.transcript
       (filter (fun r => Bool.eqb (Result.isFinal r) final)
          (skipn (resultIndex ev) (results ev)))).

(** The state with the transcript shown while the user speaks. *)
Record Screen : Type := { state : State; currentTranscript : string }.

(** [recognition.onresult], set by [initializeVoiceSystem] in the effect
    of the mount: its [processVoiceCommand] is the one of the first
    render.  An empty string is falsy, so a final transcript that is empty
    is not processed. *)
Definition onresult (env : Env) (ev : SpeechEvent) (scr : Screen) : Screen :=
  let interimTranscript := joined false ev in
  let finalTranscript := joined true ev in
  {| currentTranscript :=
       if interimTranscript =? "" then finalTranscript else interimTranscript;
     state :=
       if finalTranscript =? "" then state scr
       else
         processVoiceCommand mount env finalTranscript
           (addVoiceMessage env user finalTranscript
              (last (map (fun r => Some (Result.confidence r)) (results ev)) None)
              (state scr)) |}.

(** [recognition.onerror] *)
Definition onerror (env : Env) (error : string) (st : State) : State :=
  let st := setIsListening false st in
  if error =? "no-speech" then
    addVoiceMessage env assistant "I didn't hear anything. Please try speaking again." None st
  else
    addVoiceMessage env assistant "Sorry, I had trouble understanding. Please try again." None st.

Definition setRiskData (r : option RiskData) (st : State) : State :=
  {| voiceMessages := voiceMessages st; healthAlerts := healthAlerts st;
     riskData := r; isListening := isListening st;
     isProcessing := isProcessing st; synth := synth st;
     utterances := utterances st; route := route st |}.

(** The reply of [/api/recent-predictions?limit=1] as far as
    [fetchLatestRiskData] reads it: of each prediction its [timestamp] and
    its [prediction_result] with the [cardiovascular_risks], a map from the
    name of a risk to its [probability].  An absent field is [None]. *)
Record Prediction : Type := {
  prediction_result : option (option (list (string * option Q)));
  timestamp : string
}.

Inductive Fetched : Type :=
| Rejected
| Resolved (data : list Prediction).

(** [risks?.name?.probability || 0] *)
Definition probability_or_0 (risks : option (list (string * option Q))) (name : string) : Q :=
  match risks with
  | Some rs =>
      match find (fun kv => fst kv =? name) rs with
      | Some (_, Some p) => p
      | _ => 0
      end
  | None => 0
  end.

(** [Math.round(x)]: the nearest integer, a half rounded up. *)
Definition round (x : Q) : Z := JS.floor (x + (1 # 2)).

(** [Math.round((risks?.name?.probability || 0) * 100)], the product taken
    exactly. *)
Definition percentage (risks : option (list (string * option Q))) (name : string) : Z :=
  round (probability_or_0 risks name * 100).

(** [fetchLatestRiskData]: a rejected fetch and a prediction without
    [prediction_result] (a [TypeError]) end in the [catch], which only
    logs. *)
Definition fetchLatestRiskData (reply : Fetched) (st : State) : State :=
  match reply with
  | Rejected => st
  | Resolved [] => st
  | Resolved (latest :: _) =>
      match prediction_result latest with
      | None => st
      | Some risks =>
          setRiskData
            (Some {| overall_score := percentage risks "overall_cardiovascular";
                     heart_attack := percentage risks "heart_attack";
                     stroke := percentage risks "stroke";
                     heart_failure := percentage risks "heart_failure";
                     arrhythmia := percentage risks "arrhythmia";
                     last_updated := timestamp latest;
                     trend := stable |})
            st
      end
  end.

(** The quick actions "Show Risk" and "Get Tips": buttons of the screen
    as it shows, whose [processVoiceCommand] is the one of its render. *)
Definition quickShowRisk (env : Env) (st : State) : State :=
  processVoiceCommand (render st) env "show current risk" st.

Definition quickGetTips (env : Env) (st : State) : State :=
  processVoiceCommand (render st) env "give me health tips" st.



(** The words the table has as an alternative of their own, each with the
    index of its rule. *)
Definition bare_words : list (string * nat) :=
  [ ("pills", 3%nat); ("emergency", 4%nat); ("continue", 5%nat); ("proceed", 5%nat);
    ("repeat", 6%nat); ("pause", 8%nat); ("quiet", 8%nat) ].

End EnhancedVoiceUI.

(* ================================================================== *)
(** ** Strings beyond U+00FF *)
(* ================================================================== *)

(** A JavaScript string is a sequence of 16-bit code units, of which the
    model above keeps those up to U+00FF.  Of the units beyond, one has
    its lower case among the ASCII letters: the Kelvin sign U+212A, whose
    lower case is [k] (U+006B) and whose upper case is itself.  This
    module adds that unit to the strings and reads the command table of
    the Enhanced Voice UI screen on them. *)
Module Wide.

Import RegExp.

Inductive code_unit : Type :=
| Latin (c : ascii)   (* U+0000..U+00FF *)
| Kelvin.             (* U+212A *)

Definition text : Type := list code_unit.


Definition code (u : code_unit) : N :=
  match u with
  | Latin c => JS.code c
  | Kelvin => 8490
  end.

(** [String.prototype.toLowerCase], one code unit. *)
Definition lower_unit (u : code_unit) : code_unit :=
  match u with
  | Latin c => Latin (JS.lower_unit c)
  | Kelvin => Latin "k"
  end.

Definition toLowerCase (t : text) : text := map lower_unit t.

(** The Kelvin sign is no white space. *)
Definition is_white (u : code_unit) : bool :=
  match u with
  | Latin c => JS.is_white c
  | Kelvin => false
  end.

Fixpoint trimStart (t : text) : text :=
  match t with
  | [] => []
  | u :: t' => if is_white u then trimStart t' else t
  end.

Fixpoint trimEnd (t : text) : text :=
  match t with
  | [] => []
  | u :: t' =>
      match trimEnd t' with
      | [] => if is_white u then [] else [u]
      | x => u :: x
      end
  end.

Definition trim (t : text) : text := trimEnd (trimStart t).

(** Canonicalize of the non-Unicode case-insensitive mode: the upper case
    of the Kelvin sign is the sign itself. *)
Definition canonicalize (u : code_unit) : N :=
  match u with
  | Latin c => RegExp.canonicalize c
  | Kelvin => 8490
  end.

(** A pattern character, of the range up to U+00FF as all those of the
    table are, against a code unit of the input. *)
Definition chr_match (i : bool) (p : ascii) (u : code_unit) : bool :=
  if i then (RegExp.canonicalize p =? canonicalize u)%N else (JS.code p =? code u)%N.

Definition dot_match (u : code_unit) : bool :=
  negb ((code u =? 10)%N || (code u =? 13)%N).

Fixpoint deriv (i : bool) (u : code_unit) (r : regex) : regex :=
  match r with
  | Void => Void
  | Eps => Void
  | Chr p => if chr_match i p u then Eps else Void
  | Dot => if dot_match u then Eps else Void
  | Star r1 => Cat (deriv i u r1) (Star r1)
  | Cat r1 r2 =>
      if nullable r1
      then Alt (Cat (deriv i u r1) r2) (deriv i u r2)
      else Cat (deriv i u r1) r2
  | Alt r1 r2 => Alt (deriv i u r1) (deriv i u r2)
  end.

Fixpoint match_here (i : bool) (r : regex) (t : text) : bool :=
  nullable r ||
  match t with
  | [] => false
  | u :: t' => match_here i (deriv i u r) t'
  end.

Fixpoint search (i : bool) (r : regex) (t : text) : bool :=
  match_here i r t ||
  match t with
  | [] => false
  | _ :: t' => search i r t'
  end.

(** [RegExp.prototype.test]. *)
Definition test (re : RegExp.t) (t : text) : bool :=
  search (ignoreCase re) (source re) t.

(** The look-up of [processVoiceCommand] and the classifier, on these
    strings. *)
Definition matchedCommand (transcript : text) : option EnhancedVoiceUI.VoiceCommand :=
  find (fun cmd => test (EnhancedVoiceUI.pattern cmd) transcript)
       EnhancedVoiceUI.voiceCommands.

Definition classify (transcript : text) : string * Q :=
  match matchedCommand transcript with
  | Some cmd => (EnhancedVoiceUI.action cmd, EnhancedVoiceUI.base_confidence cmd)
  | None => ("unknown", EnhancedVoiceUI.unknown_confidence)
  end.

End Wide.

(* ================================================================== *)
(** ** The AI Health Coach screen (src/frontend/app/voice-assistant.tsx) *)
(* ================================================================== *)

Module VoiceAssistant.

(** The closures of the command table, by what they call. *)
Inductive Action : Type :=
| Push (path : string)
| GetLatestRisk (riskType : string)
| ExplainLatestResults
| GetPersonalizedTips.

Record VoiceCommand : Type := {
  command : string;
  action : Action;
  description : string
}.

Definition voiceCommands : list VoiceCommand :=
  [ {| command := "start assessment"; action := Push "/assessment";
       description := "Begin a new heart health assessment" |};
    {| command := "show risk monitor"; action := Push "/risk-monitor";
       description := "View real-time risk monitoring" |};
    {| command := "view history"; action := Push "/history";
       description := "Check your assessment history" |};
    {| command := "go home"; action := Push "/";
       description := "Return to home dashboard" |};
    {| command := "what is my heart attack risk"; action := GetLatestRisk "heart_attack";
       description := "Get your current heart attack risk level" |};
    {| command := "explain my results"; action := ExplainLatestResults;
       description := "Get AI explanation of your latest assessment" |};
    {| command := "give me health tips"; action := GetPersonalizedTips;
       description := "Receive personalized health recommendations" |} ].

Module AIResponse.
Record t : Type := { message : string; action : option string }.
End AIResponse.

Inductive Speaker : Type := user | ai.

Module Entry.
Record t : Type := { type : Speaker; message : string; timestamp : N }.
End Entry.

(** The reply of [/api/recent-predictions?limit=1], as far as
    [getLatestRisk] reads it.  An absent field is [None]. *)
Record Risk : Type := { risk_level : option string; probability : Q }.

Record Prediction : Type := {
  prediction_result : option (option (list (string * Risk)))
    (* [prediction_result], then its [cardiovascular_risks] *)
}.

Inductive Fetched : Type :=
| Rejected                         (* [fetch] or [json] rejects *)
| Resolved (data : list Prediction).

Record Env : Type := { now : N; random : Q; recent_predictions : Fetched }.

Record State : Type := {
  isListening : bool;
  transcript : string;
  aiResponse : option AIResponse.t;
  conversationHistory : list Entry.t;
  synth : bool;
  utterances : list string;
  route : list string;
  alerts : list (string * string);
  timers : list string;
  console : list string
}.

Definition setTranscript (t : string) (st : State) : State :=
  {| isListening := isListening st; transcript := t; aiResponse := aiResponse st;
     conversationHistory := conversationHistory st; synth := synth st;
     utterances := utterances st; route := route st; alerts := alerts st;
     timers := timers st; console := console st |}.

Definition setAiResponse (r : AIResponse.t) (st : State) : State :=
  {| isListening := isListening st; transcript := transcript st; aiResponse := Some r;
     conversationHistory := conversationHistory st; synth := synth st;
     utterances := utterances st; route := route st; alerts := alerts st;
     timers := timers st; console := console st |}.

Definition setConversationHistory (f : list Entry.t -> list Entry.t) (st : State) : State :=
  {| isListening := isListening st; transcript := transcript st; aiResponse := aiResponse st;
     conversationHistory := f (conversationHistory st); synth := synth st;
     utterances := utterances st; route := route st; alerts := alerts st;
     timers := timers st; console := console st |}.

Definition setUtterances (q : list string) (st : State) : State :=
  {| isListening := isListening st; transcript := transcript st; aiResponse := aiResponse st;
     conversationHistory := conversationHistory st; synth := synth st;
     utterances := q; route := route st; alerts := alerts st;
     timers := timers st; console := console st |}.

Definition router_push (path : string) (st : State) : State :=
  {| isListening := isListening st; transcript := transcript st; aiResponse := aiResponse st;
     conversationHistory := conversationHistory st; synth := synth st;
     utterances := utterances st; route := (route st ++ [path])%list; alerts := alerts st;
     timers := timers st; console := console st |}.

Definition Alert_alert (title body : string) (st : State) : State :=
  {| isListening := isListening st; transcript := transcript st; aiResponse := aiResponse st;
     conversationHistory := conversationHistory st; synth := synth st;
     utterances := utterances st; route := route st;
     alerts := (alerts st ++ [(title, body)])%list;
     timers := timers st; console := console st |}.

Definition setTimeout (action : string) (st : State) : State :=
  {| isListening := isListening st; transcript := transcript st; aiResponse := aiResponse st;
     conversationHistory := conversationHistory st; synth := synth st;
     utterances := utterances st; route := route st; alerts := alerts st;
     timers := (timers st ++ [action])%list; console := console st |}.

Definition console_error (line : string) (st : State) : State :=
  {| isListening := isListening st; transcript := transcript st; aiResponse := aiResponse st;
     conversationHistory := conversationHistory st; synth := synth st;
     utterances := utterances st; route := route st; alerts := alerts st;
     timers := timers st; console := (console st ++ [line])%list |}.

(** [speak]: cancels any ongoing speech, then queues the text. *)
Definition speak (text : string) (st : State) : State :=
  if synth st then setUtterances [text] st else st.

Definition addToConversation (env : Env) (type : Speaker) (message : string)
    (st : State) : State :=
  setConversationHistory
    (fun prev => prev ++ [ {| Entry.type := type; Entry.message := message;
                              Entry.timestamp := now env |} ])%list st.

(** [getAIHealthCoachResponse]: the first keyword group found in the
    lower-cased query decides. *)
Definition getAIHealthCoachResponse (query : string) : AIResponse.t :=
  let lowerQuery := JS.toLowerCase query in
  let has := JS.includes lowerQuery in
  if has "heart attack" || has "heart risk" then
    {| AIResponse.message := "Based on your latest assessment, your heart attack risk is currently at a medium level. This is primarily influenced by factors like cholesterol levels and lifestyle habits. Would you like specific recommendations to reduce this risk?";
       AIResponse.action := Some "show_heart_attack_details" |}
  else if has "stroke" || has "brain" then
    {| AIResponse.message := "Your stroke risk appears to be in the low category, which is great news! Your blood pressure management and overall cardiovascular health are contributing positively. Keep up the good work with your current lifestyle.";
       AIResponse.action := Some "show_stroke_details" |}
  else if has "tips" || has "advice" || has "help me" then
    {| AIResponse.message := "Here are your top 3 personalized recommendations: First, consider increasing your weekly exercise to at least 150 minutes. Second, focus on reducing sodium intake to help with blood pressure. Third, ensure you're getting 7-8 hours of quality sleep nightly.";
       AIResponse.action := Some "show_personalized_tips" |}
  else if has "explain" || has "what does" || has "mean" then
    {| AIResponse.message := "Your cardiovascular risk assessment uses machine learning to analyze 22 different health factors. The system looks at things like your age, blood pressure, cholesterol, lifestyle habits, and family history to calculate your risk for different heart conditions.";
       AIResponse.action := Some "show_explanation" |}
  else if has "improve" || has "better" || has "reduce risk" then
    {| AIResponse.message := "Great question! Based on your profile, the most impactful changes would be: quitting smoking if applicable, which could reduce your risk by up to 15%, increasing physical activity could lower it by 8%, and improving your diet could provide a 6% reduction.";
       AIResponse.action := Some "show_improvement_plan" |}
  else if has "emergency" || has "urgent" || has "call doctor" then
    {| AIResponse.message := "If you're experiencing chest pain, shortness of breath, or other concerning symptoms, please seek immediate medical attention or call emergency services. For non-urgent questions, I recommend scheduling an appointment with your healthcare provider.";
       AIResponse.action := Some "show_emergency_info" |}
  else if has "help" || has "commands" then
    {| AIResponse.message := "I can help you with: checking your heart risks, explaining assessment results, providing health tips, starting new assessments, or navigating the app. Just speak naturally - for example, say 'What's my heart attack risk?' or 'Give me health advice'.";
       AIResponse.action := Some "show_help" |}
  else
    {| AIResponse.message := "I understand you're asking about your heart health. Could you be more specific? You can ask about your risk levels, request health tips, or say 'help' to see what I can do for you.";
       AIResponse.action := None |}.

(** [executeAIAction], run by the timer two seconds after the reply. *)
Definition executeAIAction (action : string) (st : State) : State :=
  if action =? "show_heart_attack_details" then router_push "/risk-monitor" st
  else if action =? "show_emergency_info" then
    Alert_alert "Emergency Information"
      "For immediate help: Call 911 (US) or your local emergency number. For non-urgent questions, contact your healthcare provider."
      st
  else st.

(** [handleAIQuery].  [getAIHealthCoachResponse] cannot throw, so the
    [catch] branch is not reached. *)
Definition handleAIQuery (env : Env) (query : string) (st : State) : State :=
  let response := getAIHealthCoachResponse query in
  let st := addToConversation env ai (AIResponse.message response) st in
  let st := speak (AIResponse.message response) st in
  let st := setAiResponse response st in
  match AIResponse.action response with
  | Some a => setTimeout a st
  | None => st
  end.

Definition explainLatestResults (env : Env) (st : State) : State :=
  let message := "Your latest assessment shows a comprehensive view of your cardiovascular health. The AI analyzed your lifestyle factors, medical history, and vital signs to calculate risks for heart attack, stroke, heart failure, and arrhythmia. Would you like me to explain any specific risk category?" in
  speak message (addToConversation env ai message st).

Definition tips : list string :=
  [ "Aim for 30 minutes of moderate exercise 5 days a week";
    "Limit sodium to less than 2,300mg daily";
    "Include omega-3 rich fish twice weekly";
    "Practice stress-reduction techniques daily";
    "Monitor your blood pressure regularly" ].

(** [tips[Math.floor(Math.random() * tips.length)]] *)
Definition randomTip (env : Env) : option string :=
  JS.array_get tips (JS.floor (random env * inject_Z (Z.of_nat (List.length tips)))).

Definition tip_message (tip : string) : string :=
  "Here's a personalized tip: " ++ tip
  ++ ". Would you like more specific advice for your risk profile?".

Definition getPersonalizedTips (env : Env) (st : State) : State :=
  let message := tip_message (JS.interpolate (randomTip env)) in
  speak message (addToConversation env ai message st).

Section NumberFormat.

(** [(p * 100).toFixed(1)] is binary64 arithmetic and formatting: the
    rendering of a probability is a parameter of the model. *)
Variable percent : Q -> string.

(** The lookup [cardiovascular_risks?.[riskType]]. *)
Definition lookup_risk (riskType : string) (risks : option (list (string * Risk)))
    : option Risk :=
  match risks with
  | Some rs => option_map snd (find (fun kv => fst kv =? riskType) rs)
  | None => None
  end.

(** The [try] block of [getLatestRisk] once the reply is there: [None] is
    a thrown [TypeError] (reading a field of [undefined]). *)
Definition getLatestRisk_try (env : Env) (riskType : string) (st : State)
    : option State :=
  match recent_predictions env with
  | Rejected => None
  | Resolved [] => Some st
  | Resolved (latest :: _) =>
      match prediction_result latest with
      | None => None
      | Some risks =>
          match lookup_risk riskType risks with
          | None => Some st
          | Some risk =>
              match risk_level risk with
              | None => None
              | Some level =>
                  let message :=
                    "Your " ++ JS.replace riskType "_" " " ++ " risk is currently "
                    ++ JS.toLowerCase level ++ " at " ++ percent (probability risk)
                    ++ "%." in
                  Some (speak message (addToConversation env ai message st))
              end
          end
      end
  end.

(** [getLatestRisk]: whatever is thrown is caught and logged. *)
Definition getLatestRisk (env : Env) (riskType : string) (st : State) : State :=
  match getLatestRisk_try env riskType st with
  | Some st' => st'
  | None => console_error "Error getting latest risk:" st
  end.

(** What [matchedCommand.action()] does before it returns: everything,
    but for [getLatestRisk], which stops at its [await fetch]. *)
Definition action_call (env : Env) (a : Action) (st : State) : State :=
  match a with
  | Push path => router_push path st
  | GetLatestRisk _ => st
  | ExplainLatestResults => explainLatestResults env st
  | GetPersonalizedTips => getPersonalizedTips env st
  end.

(** What is left of the action once the reply of [fetch] has come. *)
Definition action_resume (env : Env) (a : Action) (st : State) : State :=
  match a with
  | GetLatestRisk riskType => getLatestRisk env riskType st
  | _ => st
  end.

(** [voiceCommands.find(cmd => command.includes(cmd.command) ||
    cmd.command.includes(command))] *)
Definition matchedCommand (command_ : string) : option VoiceCommand :=
  find (fun cmd => JS.includes command_ (command cmd)
                   || JS.includes (command cmd) command_) voiceCommands.

(** The branch of [processVoiceCommand] for a matched command. *)
Definition runCommand (env : Env) (cmd : VoiceCommand) (st : State) : State :=
  let st := action_call env (action cmd) st in
  let response := "Executing: " ++ description cmd in
  let st := speak response (addToConversation env ai response st) in
  action_resume env (action cmd) st.

Definition processVoiceCommand (env : Env) (command_ : string) (st : State) : State :=
  match matchedCommand command_ with
  | Some cmd => runCommand env cmd st
  | None => handleAIQuery env command_ st
  end.

(** [recognition.onresult]: the transcript is lower-cased and trimmed
    before anything reads it. *)
Definition onresult (env : Env) (heard : string) (st : State) : State :=
  let result := JS.trim (JS.toLowerCase heard) in
  processVoiceCommand env result
    (addToConversation env user result (setTranscript result st)).

End NumberFormat.

(** The action identifiers a reply suggests. *)
Definition suggested_actions (r : AIResponse.t) : list string :=
  match AIResponse.action r with
  | Some a => [a]
  | None => []
  end.

(** The keyword groups [getAIHealthCoachResponse] tries before the
    emergency group. *)
Definition earlier_keywords : list string :=
  [ "heart attack"; "heart risk"; "stroke"; "brain"; "tips"; "advice"; "help me";
    "explain"; "what does"; "mean"; "improve"; "better"; "reduce risk" ].

Definition emergency_keywords : list string := ["emergency"; "urgent"; "call doctor"].

(** The queries that get as far as the emergency group and stop there. *)
Definition reaches_emergency (query : string) : bool :=
  let q := JS.toLowerCase query in
  forallb (fun k => negb (JS.includes q k)) earlier_keywords
  && existsb (JS.includes q) emergency_keywords.

(** The command of a transcript as the recogniser heard it: [onresult]
    hands [processVoiceCommand] the lower-cased, trimmed text. *)
Definition classify (heard : string) : option VoiceCommand :=
  matchedCommand (JS.trim (JS.toLowerCase heard)).

(** The messages of the conversation. *)
Definition messages (st : State) : list string :=
  map Entry.message (conversationHistory st).

(** A fresh screen. *)
Definition fresh : State :=
  {| isListening := false; transcript := ""; aiResponse := None;
     conversationHistory := []; synth := true; utterances := []; route := [];
     alerts := []; timers := []; console := [] |}.

(** *** The rest of the screen: the timer of a reply and the buttons *)

Definition setTimers (ts : list string) (st : State) : State :=
  {| isListening := isListening st; transcript := transcript st; aiResponse := aiResponse st;
     conversationHistory := conversationHistory st; synth := synth st;
     utterances := utterances st; route := route st; alerts := alerts st;
     timers := ts; console := console st |}.

(** The oldest timer set by [handleAIQuery] goes off: its
    [executeAIAction] runs. *)
Definition fireTimer (st : State) : State :=
  match timers st with
  | [] => st
  | a :: rest => executeAIAction a (setTimers rest st)
  end.

(** A button of "Try These Commands": the phrase is put in the
    conversation and processed as it stands. *)
Definition pressCommand (percent : Q -> string) (env : Env) (cmd : VoiceCommand)
    (st : State) : State :=
  processVoiceCommand percent env (command cmd)
    (addToConversation env user (command cmd) st).

(** The phrases the buttons show: [voiceCommands.slice(0, 5)]. *)
Definition shownCommands : list VoiceCommand := firstn 5 voiceCommands.

(** The text of the newest message of the conversation. *)
Definition newest (st : State) : string := last (messages st) "".

(** The keywords of the heart group of [getAIHealthCoachResponse]. *)
Definition heart_keywords : list string := ["heart attack"; "heart risk"].

End VoiceAssistant.

(* ================================================================== *)
(** ** The entity extractor *)
(* ================================================================== *)

Module EntityExtractor.

(** Modelled from the spec: the entity extractor of the voice NLP service,
    which is not among the sources (the screens above only scan a query
    for [heart attack] and then for [stroke]).  The specification: scan
    for a fixed vocabulary of condition keywords (heart_attack, stroke,
    heart_failure, arrhythmia) and of severity words (mild, moderate,
    severe, mapped to low, medium, high); at most one condition and one
    severity per call; a key that was not found is left out. *)
Definition conditions : list (string * string) :=
  [ ("heart attack", "heart_attack"); ("stroke", "stroke");
    ("heart failure", "heart_failure"); ("arrhythmia", "arrhythmia") ].

(** Modelled from the spec: the severity words, "mild/moderate/severe
    mapped to low/medium/high"; the sources have no severity scan. *)
Definition severities : list (string * string) :=
  [ ("mild", "low"); ("moderate", "medium"); ("severe", "high") ].

(** Modelled from the spec: "at most one" entity of a kind, the value of
    the first keyword of the vocabulary that occurs in the text. *)
Definition scan (vocabulary : list (string * string)) (text : string) : option string :=
  option_map snd (find (fun kv => JS.includes text (fst kv)) vocabulary).

(** Modelled from the spec: "absent keys are omitted (not null-filled)". *)
Definition entry (key : string) (value : option string) : list (string * string) :=
  match value with
  | Some v => [(key, v)]
  | None => []
  end.

(** Modelled from the spec: [extract(text) -> EntityMap], the map as the
    list of its entries, the text scanned case-insensitively as the
    classifier does. *)
Definition extract (text : string) : list (string * string) :=
  let t := JS.toLowerCase text in
  (entry "condition" (scan conditions t) ++ entry "severity" (scan severities t))%list.

(** The entries of a map under a key. *)
Definition under (key : string) (m : list (string * string)) : list (string * string) :=
  filter (fun kv => fst kv =? key) m.

End EntityExtractor.

(* ================================================================== *)
(** ** Facts on strings *)
(* ================================================================== *)

Module JSFacts.

Import JS.

Lemma append_nil_r (s : string) : s ++ "" = s.
Proof. induction s as [|c s IH]; simpl; [reflexivity | now rewrite IH]. Qed.

Lemma append_assoc (s1 s2 s3 : string) : (s1 ++ s2) ++ s3 = s1 ++ (s2 ++ s3).
Proof. induction s1 as [|c s1 IH]; simpl; [reflexivity | now rewrite IH]. Qed.

Lemma append_eq_nil (s1 s2 : string) : s1 ++ s2 = "" -> s1 = "" /\ s2 = "".
Proof. destruct s1; simpl; [auto | discriminate]. Qed.

Lemma prefix_iff (p s : string) : prefix p s = true <-> exists r, s = p ++ r.
Proof.
  revert s; induction p as [|a p IH]; intros s; simpl.
  - destruct s; simpl; split; eauto.
  - destruct s as [|b s]; simpl.
    + split; [discriminate | intros [r Hr]; discriminate].
    + destruct (ascii_dec a b) as [->|Hab].
      * rewrite IH. split; intros [r Hr]; exists r; congruence.
      * split; [discriminate | intros [r Hr]; congruence].
Qed.

Lemma includes_eq (s sub : string) :
  includes s sub =
  prefix sub s || match s with "" => false | String _ s' => includes s' sub end.
Proof. destruct s; reflexivity. Qed.

(** [includes] finds exactly the strings that occur somewhere. *)
Lemma includes_iff (s sub : string) :
  includes s sub = true <-> exists pre post, s = pre ++ sub ++ post.
Proof.
  induction s as [|c s IH]; rewrite includes_eq.
  - rewrite orb_false_r, prefix_iff. split.
    + intros [r Hr]. exists "", r. exact Hr.
    + intros [pre [post H]]. symmetry in H.
      apply append_eq_nil in H as [-> H]. exists post. now rewrite H.
  - rewrite orb_true_iff, prefix_iff, IH. split.
    + intros [[r Hr] | [pre [post H]]].
      * exists "", r. exact Hr.
      * exists (String c pre), post. simpl. now rewrite H.
    + intros [pre [post H]]. destruct pre as [|a pre]; simpl in H.
      * left. now exists post.
      * right. exists pre, post. congruence.
Qed.

Lemma includes_refl (s : string) : includes s s = true.
Proof. apply includes_iff. exists "", "". simpl. now rewrite append_nil_r. Qed.

Lemma includes_trans (a b c : string) :
  includes b a = true -> includes c b = true -> includes c a = true.
Proof.
  rewrite !includes_iff. intros [p1 [q1 ->]] [p2 [q2 ->]].
  exists (p2 ++ p1), (q1 ++ q2). now rewrite !append_assoc.
Qed.








End JSFacts.

(* ================================================================== *)
(** ** The matcher against the words of a pattern *)
(* ================================================================== *)

Module RegExpFacts.

Import JS RegExp JSFacts.

Section Matcher.

Variable i : bool.

Lemma nullable_lang (r : regex) : nullable r = true <-> lang i r "".
Proof.
  split.
  - induction r; simpl; intros H; try discriminate.
    + constructor.
    + constructor.
    + apply andb_true_iff in H as [H1 H2].
      change "" with ("" ++ ""). constructor; auto.
    + apply orb_true_iff in H as [H|H]; [apply lang_alt_l | apply lang_alt_r]; auto.
  - intros H. remember "" as w eqn:E.
    induction H; simpl; try discriminate; auto.
    + apply append_eq_nil in E as [-> ->]. now rewrite IHlang1, IHlang2.
    + now rewrite IHlang.
    + rewrite IHlang by assumption. apply orb_true_r.
Qed.

Lemma deriv_sound (c : ascii) (r : regex) (s : string) :
  lang i (deriv i c r) s -> lang i r (String c s).
Proof.
  revert s; induction r; simpl; intros s H.
  - inversion H.
  - inversion H.
  - destruct (chr_match i a c) eqn:E; inversion H; subst. now constructor.
  - destruct (dot_match c) eqn:E; inversion H; subst. now constructor.
  - inversion H; subst.
    change (String c (s1 ++ s2)) with (String c s1 ++ s2).
    constructor; auto.
  - destruct (nullable r1) eqn:N.
    + inversion H; subst.
      * match goal with X : lang i (Cat _ _) _ |- _ => inversion X; subst end.
        change (String c (s1 ++ s2)) with (String c s1 ++ s2).
        constructor; auto.
      * change (String c s) with ("" ++ String c s).
        constructor; [now apply nullable_lang | auto].
    + inversion H; subst.
      change (String c (s1 ++ s2)) with (String c s1 ++ s2).
      constructor; auto.
  - inversion H; subst; [apply lang_alt_l | apply lang_alt_r]; auto.
Qed.

Lemma deriv_complete (c : ascii) (r : regex) (s : string) :
  lang i r (String c s) -> lang i (deriv i c r) s.
Proof.
  intros H. remember (String c s) as w eqn:E. revert s E.
  induction H; intros t E; simpl; try discriminate.
  - injection E as -> <-. rewrite H. constructor.
  - injection E as -> <-. rewrite H. constructor.
  - destruct s1 as [|a s1]; simpl in E.
    + now apply IHlang2.
    + injection E as -> <-. constructor; auto.
  - destruct s1 as [|a s1]; simpl in E.
    + assert (N : nullable r1 = true) by now apply nullable_lang.
      rewrite N. apply lang_alt_r. now apply IHlang2.
    + injection E as -> <-.
      destruct (nullable r1); [apply lang_alt_l|]; constructor; auto.
  - apply lang_alt_l. now apply IHlang.
  - apply lang_alt_r. now apply IHlang.
Qed.

(** The derivative matcher decides membership. *)
Lemma full_match_lang (r : regex) (s : string) :
  full_match i r s = true <-> lang i r s.
Proof.
  revert r; induction s as [|c s IH]; intros r; simpl.
  - apply nullable_lang.
  - rewrite IH. split; [apply deriv_sound | apply deriv_complete].
Qed.

Lemma match_here_eq (r : regex) (s : string) :
  match_here i r s =
  nullable r || match s with "" => false | String c s' => match_here i (deriv i c r) s' end.
Proof. destruct s; reflexivity. Qed.

Lemma search_eq (r : regex) (s : string) :
  search i r s =
  match_here i r s || match s with "" => false | String _ s' => search i r s' end.
Proof. destruct s; reflexivity. Qed.

(** [match_here] finds a word of the pattern that is a prefix. *)
Lemma match_here_iff (r : regex) (s : string) :
  match_here i r s = true <-> exists m rest, s = m ++ rest /\ lang i r m.
Proof.
  revert r; induction s as [|c s IH]; intros r; rewrite match_here_eq.
  - rewrite orb_false_r, nullable_lang. split.
    + intros H. now exists "", "".
    + intros [m [rest [E H]]]. symmetry in E.
      apply append_eq_nil in E as [-> _]. exact H.
  - rewrite orb_true_iff, nullable_lang, IH. split.
    + intros [H | [m [rest [E H]]]].
      * now exists "", (String c s).
      * exists (String c m), rest. split; [simpl; now rewrite E | now apply deriv_sound].
    + intros [m [rest [E H]]]. destruct m as [|a m]; simpl in E.
      * now left.
      * right. injection E as <- ->. exists m, rest.
        split; [reflexivity | now apply deriv_complete].
Qed.

(** [search] finds a word of the pattern anywhere in the input. *)
Lemma search_iff (r : regex) (s : string) :
  search i r s = true <-> exists pre m post, s = pre ++ m ++ post /\ lang i r m.
Proof.
  induction s as [|c s IH]; rewrite search_eq.
  - rewrite orb_false_r, match_here_iff. split.
    + intros [m [rest [E H]]]. now exists "", m, rest.
    + intros [pre [m [post [E H]]]]. symmetry in E.
      apply append_eq_nil in E as [-> E]. now exists m, post.
  - rewrite orb_true_iff, match_here_iff, IH. split.
    + intros [[m [rest [E H]]] | [pre [m [post [E H]]]]].
      * now exists "", m, rest.
      * exists (String c pre), m, post. split; [simpl; now rewrite E | exact H].
    + intros [pre [m [post [E H]]]]. destruct pre as [|a pre]; simpl in E.
      * left. now exists m, post.
      * right. injection E as <- ->. now exists pre, m, post.
Qed.





End Matcher.

(** The case-insensitive matcher cannot tell a character from its lower
    case. *)
Lemma canonicalize_lower (c : ascii) : canonicalize (lower_unit c) = canonicalize c.
Proof. destruct c as [[] [] [] [] [] [] [] []]; reflexivity. Qed.





End RegExpFacts.

(* ================================================================== *)
(** ** Facts on lists and on the random draw *)
(* ================================================================== *)

Module ListFacts.

Local Open Scope list_scope.

Lemma find_first {A : Type} (f : A -> bool) (before after : list A) (x : A) :
  (forall y, In y before -> f y = false) -> f x = true ->
  find f (before ++ x :: after) = Some x.
Proof.
  intros Hb Hx. induction before as [|b before IH]; simpl.
  - now rewrite Hx.
  - rewrite (Hb b) by now left. apply IH. intros y Hy. apply Hb. now right.
Qed.

Lemma find_split {A : Type} (f : A -> bool) (l : list A) (x : A) :
  find f l = Some x ->
  exists before after,
    l = before ++ x :: after /\ (forall y, In y before -> f y = false) /\ f x = true.
Proof.
  induction l as [|a l IH]; simpl; [discriminate|].
  destruct (f a) eqn:Fa.
  - intros [= ->]. exists [], l. simpl. repeat split; [intros y []| exact Fa].
  - intros H. destruct (IH H) as [before [after [-> [Hb Hx]]]].
    exists (a :: before), after. repeat split; [|exact Hx].
    intros y [<-|Hy]; auto.
Qed.

Lemma find_ext_in {A : Type} (f g : A -> bool) (l : list A) :
  (forall x, In x l -> f x = g x) -> find f l = find g l.
Proof.
  induction l as [|a l IH]; simpl; intros H; [reflexivity|].
  rewrite (H a) by now left. destruct (g a); [reflexivity|].
  apply IH. intros x Hx. apply H. now right.
Qed.

Lemma find_none_iff {A : Type} (f : A -> bool) (l : list A) :
  find f l = None <-> forall x, In x l -> f x = false.
Proof.
  split; [apply find_none|].
  induction l as [|a l IH]; simpl; intros H; [reflexivity|].
  rewrite (H a) by now left. apply IH. intros x Hx. apply H. now right.
Qed.

(** [Math.floor(Math.random() * 5)] is one of 0, 1, 2, 3, 4. *)
Lemma draw_of_five (r : Q) :
  0 <= r -> r < 1 -> (0 <= JS.floor (r * inject_Z 5) < 5)%Z.
Proof.
  intros H0 H1. unfold JS.floor. split.
  - change 0%Z with (Qfloor 0). apply Qfloor_resp_le.
    unfold inject_Z. lra.
  - rewrite Zlt_Qlt. apply Qle_lt_trans with (r * inject_Z 5).
    + apply Qfloor_le.
    + unfold inject_Z. lra.
Qed.

Lemma array_get_five {A : Type} (a b c d e : A) (i : Z) :
  (0 <= i < 5)%Z ->
  exists x, JS.array_get [a; b; c; d; e] i = Some x /\ In x [a; b; c; d; e].
Proof.
  intros H.
  assert (C : (i = 0 \/ i = 1 \/ i = 2 \/ i = 3 \/ i = 4)%Z) by lia.
  destruct C as [-> | [-> | [-> | [-> | ->]]]]; simpl; eexists; split;
    try reflexivity; simpl; auto 10.
Qed.

End ListFacts.

(* ================================================================== *)
(** ** The Enhanced Voice UI screen: what a command does *)
(* ================================================================== *)

Module EnhancedVoiceUIFacts.

Import EnhancedVoiceUI ListFacts.

#[local] Arguments message_view m /.
#[local] Arguments alert_view a /.
#[local] Opaque firstn.

(** The handler that runs is the one the intent names. *)
Lemma processVoiceCommand_intent (r : Render.t) (env : Env) (transcript : string)
    (st : State) :
  processVoiceCommand r env transcript st =
  setIsProcessing false
    (executeVoiceAction r env (intent transcript) transcript (setIsProcessing true st)).
Proof.
  unfold processVoiceCommand, intent.
  destruct (matchedCommand transcript); reflexivity.
Qed.

Lemma matched_in_table (transcript : string) (cmd : VoiceCommand) :
  matchedCommand transcript = Some cmd -> In cmd voiceCommands.
Proof. intros H. now apply find_some in H. Qed.

(** The intents the table and the no-match outcome can give. *)
Lemma intent_cases (transcript : string) :
  In (intent transcript)
     [ "show_risk"; "start_assessment"; "explain_results"; "medication_reminder";
       "emergency_help"; "next_question"; "repeat_last"; "lifestyle_tips";
       "stop_listening"; "unknown" ].
Proof.
  unfold intent. destruct (matchedCommand transcript) as [cmd|] eqn:M.
  - apply matched_in_table in M. simpl in M.
    repeat (destruct M as [<- | M]; [simpl; auto 12|]). destruct M.
  - simpl; auto 12.
Qed.

Lemma tip_drawn (env : Env) :
  0 <= random env -> random env < 1 ->
  exists tip, randomTip env = Some tip /\ In tip tips.
Proof.
  intros H0 H1. unfold randomTip, tips.
  apply array_get_five. now apply draw_of_five.
Qed.

(** What each primitive does to the messages. *)
Lemma messages_addVoiceMessage env r txt c st :
  map message_view (voiceMessages (addVoiceMessage env r txt c st)) =
  (map message_view (voiceMessages st) ++ [(r, txt, c)])%list.
Proof.
  unfold addVoiceMessage, speak.
  destruct r; [|destruct (synth _)]; simpl; now rewrite map_app.
Qed.

Lemma messages_addHealthAlert env txt sev ty st :
  voiceMessages (addHealthAlert env txt sev ty st) = voiceMessages st.
Proof.
  unfold addHealthAlert, speak.
  destruct sev; try reflexivity. destruct (synth _); reflexivity.
Qed.

Lemma messages_router_push path st :
  voiceMessages (router_push path st) = voiceMessages st.
Proof. reflexivity. Qed.

Lemma messages_stopListening r st :
  voiceMessages (stopListening r st) = voiceMessages st.
Proof. unfold stopListening. destruct (Render.isListening r); reflexivity. Qed.

Lemma messages_setIsProcessing b st :
  voiceMessages (setIsProcessing b st) = voiceMessages st.
Proof. reflexivity. Qed.

Lemma alerts_addVoiceMessage env r txt c st :
  healthAlerts (addVoiceMessage env r txt c st) = healthAlerts st.
Proof.
  unfold addVoiceMessage, speak.
  destruct r; [|destruct (synth _)]; reflexivity.
Qed.

Lemma alerts_addHealthAlert env txt sev ty st :
  map alert_view (healthAlerts (addHealthAlert env txt sev ty st)) =
  (txt, sev, ty) :: map alert_view (firstn 4 (healthAlerts st)).
Proof.
  unfold addHealthAlert, speak.
  destruct sev; try reflexivity. destruct (synth _); reflexivity.
Qed.

Lemma alerts_setIsProcessing b st :
  healthAlerts (setIsProcessing b st) = healthAlerts st.
Proof. reflexivity. Qed.

Create Rewrite HintDb voice_rw.
Create HintDb voice.

#[export] Hint Rewrite messages_addVoiceMessage messages_addHealthAlert
  messages_router_push messages_stopListening messages_setIsProcessing
  alerts_addVoiceMessage alerts_addHealthAlert alerts_setIsProcessing : voice_rw.

Ltac handlers :=
  unfold processNaturalLanguageQuery, showCurrentRisk, explainLatestResults,
    repeatLastResult, provideLifestyleTips.

Ltac branches :=
  repeat match goal with
    | |- context [if ?b then _ else _] => destruct b eqn:?
    | |- context [match Render.riskData ?s with _ => _ end] =>
        destruct (Render.riskData s) eqn:?
    | |- context [match lastAssistantMessage ?s with _ => _ end] =>
        destruct (lastAssistantMessage s) eqn:?
    end.

(** Every action adds exactly one message, said by the assistant. *)
Lemma executeVoiceAction_one_message (r : Render.t) (env : Env) (a t : string)
    (st : State) :
  exists reply,
    map message_view (voiceMessages (executeVoiceAction r env a t st)) =
    (map message_view (voiceMessages st) ++ [(assistant, reply, None)])%list.
Proof.
  unfold executeVoiceAction. handlers.
  branches; autorewrite with voice_rw; eexists; reflexivity.
Qed.

Lemma processVoiceCommand_one_message (r : Render.t) (env : Env) (t : string)
    (st : State) :
  exists reply,
    map message_view (voiceMessages (processVoiceCommand r env t st)) =
    (map message_view (voiceMessages st) ++ [(assistant, reply, None)])%list.
Proof.
  rewrite processVoiceCommand_intent.
  destruct (executeVoiceAction_one_message r env (intent t) t (setIsProcessing true st))
    as [reply H].
  exists reply. exact H.
Qed.

Ltac same_fields H := injection H; clear H; intros; subst.

(** The primitives on two states that look the same. *)
Lemma view_addVoiceMessage env1 env2 r txt c st1 st2 :
  view st1 = view st2 ->
  view (addVoiceMessage env1 r txt c st1) = view (addVoiceMessage env2 r txt c st2).
Proof.
  destruct st1, st2. unfold view, addVoiceMessage, speak. simpl.
  intros H. same_fields H.
  destruct r; [|destruct synth1]; simpl; rewrite !map_app; simpl; congruence.
Qed.

Lemma view_addHealthAlert env1 env2 txt sev ty st1 st2 :
  view st1 = view st2 ->
  view (addHealthAlert env1 txt sev ty st1) = view (addHealthAlert env2 txt sev ty st2).
Proof.
  destruct st1, st2. unfold view, addHealthAlert, speak. simpl.
  intros H. same_fields H.
  assert (E3 : map alert_view (firstn 4 healthAlerts0)
               = map alert_view (firstn 4 healthAlerts1))
    by (rewrite <- !firstn_map; congruence).
  destruct sev; [| |destruct synth1]; simpl; congruence.
Qed.

Lemma view_router_push path st1 st2 :
  view st1 = view st2 -> view (router_push path st1) = view (router_push path st2).
Proof.
  destruct st1, st2. unfold view. simpl. intros H. same_fields H. congruence.
Qed.

Lemma view_stopListening r st1 st2 :
  view st1 = view st2 -> view (stopListening r st1) = view (stopListening r st2).
Proof.
  destruct st1, st2. unfold view, stopListening. simpl.
  intros H. same_fields H. destruct (Render.isListening r); simpl; congruence.
Qed.

Lemma view_setIsProcessing b st1 st2 :
  view st1 = view st2 -> view (setIsProcessing b st1) = view (setIsProcessing b st2).
Proof.
  destruct st1, st2. unfold view. simpl. intros H. same_fields H. congruence.
Qed.

(** The same, when only the shape counts: the words may differ. *)
Lemma shape_addVoiceMessage env1 env2 r txt1 txt2 c st1 st2 :
  shape st1 = shape st2 ->
  shape (addVoiceMessage env1 r txt1 c st1) = shape (addVoiceMessage env2 r txt2 c st2).
Proof.
  destruct st1, st2. unfold shape, addVoiceMessage, speak. simpl.
  intros H. same_fields H.
  destruct r; [|destruct synth1]; simpl; rewrite !map_app; simpl; congruence.
Qed.

Lemma shape_setIsProcessing b st1 st2 :
  shape st1 = shape st2 -> shape (setIsProcessing b st1) = shape (setIsProcessing b st2).
Proof.
  destruct st1, st2. unfold shape. simpl. intros H. same_fields H. congruence.
Qed.

Lemma view_shape st1 st2 : view st1 = view st2 -> shape st1 = shape st2.
Proof.
  destruct st1, st2. unfold view, shape. simpl.
  intros H. injection H as E1 E2 E3 E4 E5 E6 E7 E8. subst.
  apply (f_equal (map (fun v : Role * string * option Q => (fst (fst v), snd v)))) in E1.
  rewrite !map_map in E1. simpl in E1. congruence.
Qed.

#[export] Hint Resolve view_addVoiceMessage view_addHealthAlert view_router_push
  view_stopListening view_setIsProcessing shape_addVoiceMessage
  shape_setIsProcessing view_shape : voice.

Ltac settle := handlers; branches; auto 8 with voice.

Ltac not_this C :=
  destruct C as [<- | C];
  [ match goal with
    | H : (?x =? ?x) = false |- _ => rewrite String.eqb_refl in H; discriminate
    end | ].

(** Two runs of the action of a transcript, under two clocks and two
    draws: the same shape, and the same view unless a tip is drawn. *)
Lemma executeVoiceAction_two_runs r env1 env2 t st a :
  a = intent t ->
  shape (executeVoiceAction r env1 a t st) = shape (executeVoiceAction r env2 a t st) /\
  (samples_tip t = false ->
   view (executeVoiceAction r env1 a t st) = view (executeVoiceAction r env2 a t st)).
Proof.
  intros Ha. pose proof (intent_cases t) as C. rewrite <- Ha in C.
  unfold samples_tip. rewrite <- Ha. unfold executeVoiceAction.
  destruct (a =? "show_risk") eqn:E1; [split; [|intros _]; settle|].
  destruct (a =? "start_assessment") eqn:E2; [split; [|intros _]; settle|].
  destruct (a =? "explain_results") eqn:E3; [split; [|intros _]; settle|].
  destruct (a =? "medication_reminder") eqn:E4; [split; [|intros _]; settle|].
  destruct (a =? "emergency_help") eqn:E5; [split; [|intros _]; settle|].
  destruct (a =? "next_question") eqn:E6; [split; [|intros _]; settle|].
  destruct (a =? "repeat_last") eqn:E7; [split; [|intros _]; settle|].
  destruct (a =? "lifestyle_tips") eqn:E8.
  { split; [settle | discriminate]. }
  destruct (a =? "stop_listening") eqn:E9; [split; [|intros _]; settle|].
  simpl in C. do 9 not_this C. destruct C as [<- | []].
  split; [settle|].
  unfold processNaturalLanguageQuery.
  destruct (JS.includes _ "heart attack"); [intros _; settle|].
  destruct (JS.includes _ "stroke"); [intros _; settle|].
  destruct (_ || _); [discriminate | intros _; settle].
Qed.

End EnhancedVoiceUIFacts.

(* ================================================================== *)
(** ** Strings beyond U+00FF: the two matchers agree up to U+00FF *)
(* ================================================================== *)

Module WideFacts.

Import JS RegExp ListFacts.












End WideFacts.

(* ================================================================== *)
(** ** The AI Health Coach screen: what a command does *)
(* ================================================================== *)

Module VoiceAssistantFacts.

Import VoiceAssistant ListFacts JS JSFacts.

(** No phrase of the table occurs inside another. *)
Lemma phrases_apart :
  forallb (fun ci =>
    forallb (fun cj =>
      implb (includes (command cj) (command ci)) (command ci =? command cj))
      voiceCommands) voiceCommands = true.
Proof. vm_compute. reflexivity. Qed.

Lemma phrase_inside (ci cj : VoiceCommand) :
  In ci voiceCommands -> In cj voiceCommands ->
  includes (command cj) (command ci) = true -> command ci = command cj.
Proof.
  intros Hi Hj H. pose proof phrases_apart as A.
  rewrite forallb_forall in A. specialize (A ci Hi).
  rewrite forallb_forall in A. specialize (A cj Hj).
  rewrite H in A. simpl in A. now apply String.eqb_eq.
Qed.

(** A transcript that lies inside some phrase is matched by the phrases
    it lies in, and by no other. *)
Lemma matched_by_containment (t : string) :
  (exists c, In c voiceCommands /\ includes (command c) t = true) ->
  matchedCommand t = find (fun c => includes (command c) t) voiceCommands.
Proof.
  intros [c0 [H0 Q0]]. unfold matchedCommand. apply find_ext_in.
  intros c Hc. destruct (includes (command c) t) eqn:Q; [apply orb_true_r|].
  rewrite orb_false_r. destruct (includes t (command c)) eqn:P; [|reflexivity].
  assert (I : includes (command c0) (command c) = true)
    by (apply includes_trans with t; assumption).
  apply (phrase_inside c c0 Hc H0) in I. rewrite I in Q. congruence.
Qed.

Section NumberFormat.

Variable percent : Q -> string.

Lemma aiResponse_getLatestRisk env riskType st :
  aiResponse (getLatestRisk percent env riskType st) = aiResponse st.
Proof.
  unfold getLatestRisk, getLatestRisk_try.
  destruct (recent_predictions env) as [|[|latest data]]; try reflexivity.
  destruct (prediction_result latest) as [risks|]; try reflexivity.
  destruct (lookup_risk riskType risks) as [risk|]; try reflexivity.
  destruct (risk_level risk); try reflexivity.
  unfold speak. destruct (synth _); reflexivity.
Qed.

Lemma timers_getLatestRisk env riskType st :
  timers (getLatestRisk percent env riskType st) = timers st.
Proof.
  unfold getLatestRisk, getLatestRisk_try.
  destruct (recent_predictions env) as [|[|latest data]]; try reflexivity.
  destruct (prediction_result latest) as [risks|]; try reflexivity.
  destruct (lookup_risk riskType risks) as [risk|]; try reflexivity.
  destruct (risk_level risk); try reflexivity.
  unfold speak. destruct (synth _); reflexivity.
Qed.

(** The branch of a matched command never goes through [handleAIQuery]:
    no reply is stored and no timer is set. *)
Lemma runCommand_no_query env cmd st :
  aiResponse (runCommand percent env cmd st) = aiResponse st /\
  timers (runCommand percent env cmd st) = timers st.
Proof.
  unfold runCommand, action_resume, action_call.
  destruct (action cmd);
    rewrite ?aiResponse_getLatestRisk, ?timers_getLatestRisk;
    unfold explainLatestResults, getPersonalizedTips, speak;
    repeat match goal with |- context [if ?b then _ else _] => destruct b end;
    split; reflexivity.
Qed.

(** What the branch of a matched command does, by the kind of its action:
    a push on the router, or a call of [explainLatestResults] or
    [getPersonalizedTips], before the [Executing] line; the rest of
    [getLatestRisk], once the server has replied, after it. *)
Lemma runCommand_does env cmd st :
  let st' := runCommand percent env cmd st in
  let line := "Executing: " ++ description cmd in
  match action cmd with
  | Push path =>
      route st' = (route st ++ [path])%list /\
      messages st' = (messages st ++ [line])%list
  | GetLatestRisk riskType =>
      st' = getLatestRisk percent env riskType
              (speak line (addToConversation env ai line st))
  | ExplainLatestResults =>
      st' = speak line (addToConversation env ai line (explainLatestResults env st))
  | GetPersonalizedTips =>
      st' = speak line (addToConversation env ai line (getPersonalizedTips env st))
  end.
Proof.
  cbv zeta. unfold runCommand, action_resume, action_call.
  destruct (action cmd); try reflexivity.
  unfold speak, messages, addToConversation.
  destruct (synth _); cbn; rewrite map_app; split; reflexivity.
Qed.

Lemma handleAIQuery_stores env query st :
  aiResponse (handleAIQuery env query st) = Some (getAIHealthCoachResponse query).
Proof.
  unfold handleAIQuery, speak.
  destruct (AIResponse.action _); destruct (synth _); reflexivity.
Qed.

Lemma messages_runCommand_head env cmd st :
  In ("Executing: " ++ description cmd) (messages (runCommand percent env cmd st)).
Proof.
  unfold runCommand.
  set (st1 := action_call env (action cmd) st).
  set (response := "Executing: " ++ description cmd).
  assert (H : In response (messages (speak response (addToConversation env ai response st1)))).
  { unfold speak, messages. destruct (synth _); simpl; rewrite map_app;
      apply in_or_app; right; simpl; auto. }
  unfold action_resume. destruct (action cmd); try exact H.
  unfold getLatestRisk, getLatestRisk_try.
  destruct (recent_predictions env) as [|[|latest data]]; try exact H.
  destruct (prediction_result latest) as [risks|]; try exact H.
  destruct (lookup_risk riskType risks) as [risk|]; try exact H.
  destruct (risk_level risk); try exact H.
  revert H. generalize (speak response (addToConversation env ai response st1)).
  intros st2 H. unfold speak, messages in *.
  destruct (synth _); simpl; rewrite map_app; apply in_or_app; left; exact H.
Qed.

End NumberFormat.











End VoiceAssistantFacts.

(* ================================================================== *)
(** ** The claims of the specification *)
(* ================================================================== *)

Module E := EnhancedVoiceUI.
Module V := VoiceAssistant.

Import ListFacts JSFacts RegExpFacts EnhancedVoiceUIFacts WideFacts VoiceAssistantFacts.

Local Open Scope list_scope.

Lemma classify_intent (t : string) : fst (E.classify t) = E.intent t.
Proof. unfold E.classify, E.intent. now destruct (E.matchedCommand t). Qed.

Lemma executeVoiceAction_unknown r env t st :
  E.executeVoiceAction r env "unknown" t st = E.processNaturalLanguageQuery r env t st.
Proof. reflexivity. Qed.

Lemma executeVoiceAction_lifestyle r env t st :
  E.executeVoiceAction r env "lifestyle_tips" t st = E.provideLifestyleTips env st.
Proof. reflexivity. Qed.

Lemma executeVoiceAction_emergency r env t st :
  E.executeVoiceAction r env "emergency_help" t st =
  E.addHealthAlert env "Emergency resources available if needed" E.high E.emergency
    (E.addVoiceMessage env E.assistant E.emergency_message None st).
Proof. reflexivity. Qed.

(** The command found is always the first rule of the table that
    matches. *)
Lemma matched_is_first (transcript : string) (cmd : E.VoiceCommand) :
  E.matchedCommand transcript = Some cmd ->
  exists before after,
    E.voiceCommands = before ++ cmd :: after /\
    (forall c, In c before -> RegExp.test (E.pattern c) transcript = false) /\
    RegExp.test (E.pattern cmd) transcript = true.
Proof. intros M. now apply find_split in M. Qed.

(** A rule that matches is never passed over for no command at all. *)
Lemma some_match_is_found (transcript : string) (cmd : E.VoiceCommand) :
  In cmd E.voiceCommands -> RegExp.test (E.pattern cmd) transcript = true ->
  E.matchedCommand transcript <> None.
Proof.
  intros Hin Hm N. unfold E.matchedCommand in N.
  rewrite find_none_iff in N. rewrite (N cmd Hin) in Hm. discriminate.
Qed.

(** C1.  First match wins.  Split the command table at any rule: when the
    rule matches the transcript and no rule before it does, the command
    found is that rule, the intent is its action and the action run is
    its action, whatever the rules after it do with the transcript, and
    whichever render the command is run from. *)
Theorem first_match_wins (transcript : string)
    (before after : list E.VoiceCommand) (cmd : E.VoiceCommand) :
  E.voiceCommands = before ++ cmd :: after ->
  (forall c, In c before -> RegExp.test (E.pattern c) transcript = false) ->
  RegExp.test (E.pattern cmd) transcript = true ->
  E.matchedCommand transcript = Some cmd /\
  E.intent transcript = E.action cmd /\
  forall r env st,
    E.processVoiceCommand r env transcript st =
    E.setIsProcessing false
      (E.executeVoiceAction r env (E.action cmd) transcript (E.setIsProcessing true st)).
Proof.
  intros Hsplit Hbefore Hcmd.
  assert (M : E.matchedCommand transcript = Some cmd).
  { unfold E.matchedCommand. rewrite Hsplit.
    now apply (find_first (fun c => RegExp.test (E.pattern c) transcript)). }
  assert (I : E.intent transcript = E.action cmd)
    by (unfold E.intent; now rewrite M).
  repeat split; try assumption.
  intros r env st. now rewrite processVoiceCommand_intent, I.
Qed.

(** A transcript that two rules match ([start_assessment], the second
    rule, and [explain_results], the third): the second wins. *)
Lemma first_match_wins_witness :
  RegExp.test (E.pattern (nth 2 E.voiceCommands (nth 0 E.voiceCommands
     {| E.pattern := E.i_ RegExp.Void; E.action := ""; E.description := "" |})))
    "start assessment and explain result" = true /\
  E.intent "start assessment and explain result" = "start_assessment".
Proof.
  split; [vm_compute; reflexivity|].
  refine (proj1 (proj2 (first_match_wins "start assessment and explain result"
            (firstn 1 E.voiceCommands) (skipn 2 E.voiceCommands) _ eq_refl _ _))).
  - intros c [<- | []]. vm_compute. reflexivity.
  - vm_compute. reflexivity.
Defined.

(** C5, as stated, fails: the table has a [stop_listening] rule, which is
    not an intent of the list. *)
Lemma pause_is_outside :
  E.intent "pause" = "stop_listening" /\ ~ In (E.intent "pause") E.intents.
Proof.
  assert (I : E.intent "pause" = "stop_listening") by (vm_compute; reflexivity).
  split; [exact I|]. rewrite I. unfold E.intents. simpl.
  intros H. repeat (destruct H as [H | H]; [discriminate|]). exact H.
Qed.

(** C5, amended.  The intent of every transcript is one of the listed
    intents or [stop_listening], and every command, from whichever render
    it is run, adds exactly one message to the conversation, said by the
    assistant. *)
Theorem intent_in_closed_set (transcript : string) :
  In (E.intent transcript) (E.intents ++ ["stop_listening"]) /\
  forall r env st, exists reply,
    map E.message_view (E.voiceMessages (E.processVoiceCommand r env transcript st)) =
    map E.message_view (E.voiceMessages st) ++ [(E.assistant, reply, None)].
Proof.
  split.
  - pose proof (intent_cases transcript) as C. simpl in C. unfold E.intents. simpl.
    repeat (destruct C as [<- | C]; [auto 12|]). destruct C.
  - intros r env st. apply processVoiceCommand_one_message.
Qed.

(** C6, as stated, fails: [stroke] matches no rule of the table, and the
    answer is a statement on the stroke risk, with no question in it. *)
Lemma stroke_answer_is_no_question :
  E.matchedCommand "stroke" = None /\
  exists reply,
    E.response_text
      (E.processVoiceCommand E.mount {| E.now := 0; E.random := 0 |} "stroke" E.fresh)
    = Some reply /\
    reply <> E.generic_message /\ JS.includes reply "?" = false.
Proof.
  split; [vm_compute; reflexivity|].
  eexists. split; [vm_compute; reflexivity|].
  split; [discriminate | vm_compute; reflexivity].
Qed.

(** C6, amended.  A transcript that no rule matches has the intent
    [unknown] with the fixed confidence 0.3, at most 0.5; the command adds
    one answer of the assistant, and that answer is the generic clarifying
    question when the lower-cased text has none of the keywords
    [heart attack], [stroke], [improve], [better]. *)
Theorem unmatched_is_handled (r : E.Render.t) (env : E.Env) (t : string)
    (st : E.State) :
  E.matchedCommand t = None ->
  E.classify t = ("unknown", E.unknown_confidence) /\
  E.unknown_confidence <= 1 # 2 /\
  exists reply,
    map E.message_view (E.voiceMessages (E.processVoiceCommand r env t st)) =
    map E.message_view (E.voiceMessages st) ++ [(E.assistant, reply, None)] /\
    (forallb (fun k => negb (JS.includes (JS.toLowerCase t) k)) E.query_keywords = true ->
     reply = E.generic_message).
Proof.
  intros M. split; [unfold E.classify; now rewrite M|].
  split; [unfold E.unknown_confidence; lra|].
  unfold E.processVoiceCommand. rewrite M.
  unfold E.processNaturalLanguageQuery, E.provideLifestyleTips, E.query_keywords.
  destruct (JS.includes _ "heart attack") eqn:K1;
    [|destruct (JS.includes _ "stroke") eqn:K2;
      [|destruct (JS.includes _ "improve" || JS.includes _ "better") eqn:K3]];
    eexists; (split; [autorewrite with voice_rw; reflexivity|]);
    cbn [forallb]; rewrite ?K1, ?K2; try discriminate; try reflexivity.
  apply orb_true_iff in K3 as [K3 | K3]; rewrite K3;
    cbn [negb andb]; try discriminate.
  destruct (negb _); discriminate.
Qed.

Lemma unmatched_is_handled_witness :
  E.classify "asdfasdf" = ("unknown", E.unknown_confidence) /\
  E.response_text
    (E.processVoiceCommand E.mount {| E.now := 0; E.random := 0 |} "asdfasdf" E.fresh)
  = Some E.generic_message.
Proof.
  destruct (unmatched_is_handled E.mount {| E.now := 0; E.random := 0 |} "asdfasdf"
              E.fresh)
    as [C [_ [reply [_ G]]]].
  - vm_compute. reflexivity.
  - split; [exact C|]. vm_compute. reflexivity.
Defined.

(** C8.  Whatever the draw of [Math.random], in [0, 1), the tip of a
    lifestyle answer is one of the tips of the fixed list: on the
    Enhanced Voice UI screen for every transcript answered by
    [provideLifestyleTips], from whichever render, on the AI Health Coach
    screen for [getPersonalizedTips]. *)
Theorem tip_is_listed (r : Q) :
  0 <= r -> r < 1 ->
  (forall render now t st,
     E.samples_tip t = true ->
     exists tip,
       In tip E.tips /\
       map E.message_view
         (E.voiceMessages
            (E.processVoiceCommand render {| E.now := now; E.random := r |} t st)) =
       map E.message_view (E.voiceMessages st)
       ++ [(E.assistant, E.tip_message tip, None)]) /\
  (forall now fetched st,
     exists tip,
       In tip V.tips /\
       V.messages
         (V.getPersonalizedTips
            {| V.now := now; V.random := r; V.recent_predictions := fetched |} st) =
       V.messages st ++ [V.tip_message tip]).
Proof.
  intros H0 H1. split.
  - intros render now t st S.
    destruct (tip_drawn {| E.now := now; E.random := r |} H0 H1) as [tip [D I]].
    exists tip. split; [exact I|].
    rewrite processVoiceCommand_intent.
    unfold E.samples_tip in S. apply orb_true_iff in S as [S | S].
    + apply String.eqb_eq in S. rewrite S, executeVoiceAction_lifestyle.
      unfold E.provideLifestyleTips. rewrite D.
      now autorewrite with voice_rw.
    + repeat (apply andb_true_iff in S as [S ?]).
      apply String.eqb_eq in S. rewrite S, executeVoiceAction_unknown.
      unfold E.processNaturalLanguageQuery.
      repeat match goal with
             | H : negb ?b = true |- _ => apply negb_true_iff in H; rewrite H
             | H : (_ || _) = true |- _ => rewrite H
             end.
      unfold E.provideLifestyleTips. rewrite D.
      now autorewrite with voice_rw.
  - intros now fetched st.
    destruct (array_get_five
                "Aim for 30 minutes of moderate exercise 5 days a week"
                "Limit sodium to less than 2,300mg daily"
                "Include omega-3 rich fish twice weekly"
                "Practice stress-reduction techniques daily"
                "Monitor your blood pressure regularly"
                (JS.floor (r * inject_Z 5)) (draw_of_five r H0 H1)) as [tip [D I]].
    exists tip. split; [exact I|].
    unfold V.getPersonalizedTips, V.randomTip, V.tips. cbn [V.random List.length].
    change (inject_Z (Z.of_nat 5)) with (inject_Z 5). rewrite D.
    unfold V.speak, V.messages, V.addToConversation.
    destruct (V.synth _); cbn; now rewrite map_app.
Qed.

Lemma tip_is_listed_witness :
  exists tip,
    In tip E.tips /\
    map E.message_view
      (E.voiceMessages
         (E.processVoiceCommand E.mount {| E.now := 0; E.random := 73 # 100 |}
            "any lifestyle tips for me" E.fresh)) =
    map E.message_view (E.voiceMessages E.fresh)
    ++ [(E.assistant, E.tip_message tip, None)].
Proof.
  apply (proj1 (tip_is_listed (73 # 100) ltac:(lra) ltac:(lra)) E.mount 0%N
           "any lifestyle tips for me" E.fresh).
  vm_compute. reflexivity.
Defined.

(** C4.  Two runs of a command on the same transcript and the same state,
    from the same render, under any two clocks and draws: each runs the
    action of the intent,
    which is a function of the text alone, as its confidence is; the two
    end in states of the same shape (same alerts with the same priority,
    same roles and confidences of the messages, same route); and when the
    transcript is not one answered by a drawn tip, also in the same view:
    the same words said. *)
Theorem process_is_deterministic (r : E.Render.t) (env1 env2 : E.Env) (t : string)
    (st : E.State) :
  (forall env,
     E.processVoiceCommand r env t st =
     E.setIsProcessing false
       (E.executeVoiceAction r env (fst (E.classify t)) t (E.setIsProcessing true st))) /\
  E.shape (E.processVoiceCommand r env1 t st) = E.shape (E.processVoiceCommand r env2 t st) /\
  (E.samples_tip t = false ->
   E.view (E.processVoiceCommand r env1 t st) = E.view (E.processVoiceCommand r env2 t st)).
Proof.
  split; [intros env; rewrite classify_intent; apply processVoiceCommand_intent|].
  rewrite !processVoiceCommand_intent.
  destruct (executeVoiceAction_two_runs r env1 env2 t (E.setIsProcessing true st)
              (E.intent t) eq_refl) as [S W].
  split.
  - now apply shape_setIsProcessing.
  - intros N. apply view_setIsProcessing. now apply W.
Qed.

Lemma process_is_deterministic_witness :
  E.view (E.processVoiceCommand E.mount {| E.now := 1; E.random := 1 # 10 |}
            "what is my risk" E.fresh)
  = E.view (E.processVoiceCommand E.mount {| E.now := 2; E.random := 9 # 10 |}
              "what is my risk" E.fresh).
Proof.
  apply (proj2 (proj2 (process_is_deterministic E.mount
                         {| E.now := 1; E.random := 1 # 10 |}
                         {| E.now := 2; E.random := 9 # 10 |}
                         "what is my risk" E.fresh))).
  vm_compute. reflexivity.
Defined.





(** What is spoken on an emergency request: the alert, read at high
    priority, cancels the reading of the answer that tells to call 911;
    the answer stays in the conversation. *)
Remark emergency_answer_not_read_out :
  E.utterances
    (E.processVoiceCommand E.mount {| E.now := 0; E.random := 0 |}
       "I need emergency help" E.fresh)
  = ["Important alert: Emergency resources available if needed"].
Proof. vm_compute. reflexivity. Qed.





(** C10.  On the AI Health Coach screen a transcript that lies inside a
    command phrase runs the first command whose phrase it lies in.  That
    command is the one found and its action is executed: a navigation
    command pushes its page on the router, the other commands call their
    handler ([explainLatestResults] and [getPersonalizedTips] before the
    [Executing] line is said, the rest of [getLatestRisk] after it).  The
    query handler is not gone through: no reply is stored, no timer
    set. *)
Theorem substring_of_a_phrase_runs_it (percent : Q -> string) (env : V.Env)
    (t : string) (st : V.State) :
  (exists c, In c V.voiceCommands /\ JS.includes (V.command c) t = true) ->
  exists cmd,
    find (fun c => JS.includes (V.command c) t) V.voiceCommands = Some cmd /\
    V.matchedCommand t = Some cmd /\
    let st' := V.processVoiceCommand percent env t st in
    let line := ("Executing: " ++ V.description cmd)%string in
    match V.action cmd with
    | V.Push path =>
        V.route st' = V.route st ++ [path] /\
        V.messages st' = V.messages st ++ [line]
    | V.GetLatestRisk riskType =>
        st' = V.getLatestRisk percent env riskType
                (V.speak line (V.addToConversation env V.ai line st))
    | V.ExplainLatestResults =>
        st' = V.speak line (V.addToConversation env V.ai line (V.explainLatestResults env st))
    | V.GetPersonalizedTips =>
        st' = V.speak line (V.addToConversation env V.ai line (V.getPersonalizedTips env st))
    end /\
    In line (V.messages st') /\
    V.aiResponse st' = V.aiResponse st /\
    V.timers st' = V.timers st.
Proof.
  intros H. pose proof (matched_by_containment t H) as M.
  destruct (find (fun c => JS.includes (V.command c) t) V.voiceCommands) as [cmd|] eqn:F.
  - exists cmd. cbv zeta. unfold V.processVoiceCommand. rewrite M.
    destruct (runCommand_no_query percent env cmd st) as [A T].
    repeat split; try assumption.
    + apply (runCommand_does percent env cmd st).
    + apply messages_runCommand_head.
  - destruct H as [c [Hin Hc]].
    rewrite find_none_iff in F. rewrite (F c Hin) in Hc. discriminate.
Qed.

(** The bare word [start] runs [start assessment]: the assessment page is
    pushed on the router. *)
Lemma substring_of_a_phrase_runs_it_witness :
  let st' :=
    V.processVoiceCommand (fun _ => "")
      {| V.now := 0; V.random := 0; V.recent_predictions := V.Resolved [] |}
      "start" V.fresh in
  V.route st' = ["/assessment"] /\
  V.messages st' = ["Executing: Begin a new heart health assessment"].
Proof.
  destruct (substring_of_a_phrase_runs_it (fun _ => "")
              {| V.now := 0; V.random := 0; V.recent_predictions := V.Resolved [] |}
              "start" V.fresh) as [cmd [F [_ [R _]]]].
  - exists (nth 0 V.voiceCommands
              {| V.command := ""; V.action := V.ExplainLatestResults; V.description := "" |}).
    split; [simpl; auto | vm_compute; reflexivity].
  - vm_compute in F. injection F as <-. exact R.
Defined.

(** C3, where the code parts from it: on the AI Health Coach screen,
    when the server has no prediction, [getLatestRisk] leaves the state as
    it is; the request for the heart attack risk is answered by the
    [Executing] line alone, with no word on the missing data. *)
Theorem getLatestRisk_says_nothing (percent : Q -> string) (now : N) (r : Q)
    (riskType : string) (st : V.State) :
  let env := {| V.now := now; V.random := r; V.recent_predictions := V.Resolved [] |} in
  V.getLatestRisk percent env riskType st = st /\
  V.messages (V.processVoiceCommand percent env "what is my heart attack risk" st)
  = V.messages st ++ ["Executing: Get your current heart attack risk level"].
Proof.
  cbv zeta. split; [reflexivity|].
  change (V.processVoiceCommand percent
            {| V.now := now; V.random := r; V.recent_predictions := V.Resolved [] |}
            "what is my heart attack risk" st)
    with (V.speak "Executing: Get your current heart attack risk level"
            (V.addToConversation
               {| V.now := now; V.random := r; V.recent_predictions := V.Resolved [] |}
               V.ai "Executing: Get your current heart attack risk level" st)).
  unfold V.speak, V.messages, V.addToConversation.
  destruct (V.synth _); cbn; now rewrite map_app.
Qed.

(** The same holds when the prediction is there and has no entry for the
    risk asked. *)
Remark getLatestRisk_silent_on_missing_entry (percent : Q -> string) (now : N) (r : Q)
    (st : V.State) :
  V.getLatestRisk percent
    {| V.now := now; V.random := r;
       V.recent_predictions := V.Resolved [ {| V.prediction_result := Some (Some []) |} ] |}
    "heart_attack" st = st.
Proof. reflexivity. Qed.

(** The other screen does answer: with no risk data, [show_risk] says
    that there is none and offers a new assessment. *)
Lemma showCurrentRisk_without_data (r : E.Render.t) (env : E.Env) (t : string)
    (st : E.State) :
  E.intent t = "show_risk" -> E.Render.riskData r = None ->
  map E.message_view (E.voiceMessages (E.processVoiceCommand r env t st)) =
  map E.message_view (E.voiceMessages st) ++ [(E.assistant, E.no_risk_data_message, None)].
Proof.
  intros I R. rewrite processVoiceCommand_intent, I.
  change (E.executeVoiceAction r env "show_risk" t (E.setIsProcessing true st))
    with (E.showCurrentRisk r env (E.setIsProcessing true st)).
  unfold E.showCurrentRisk. rewrite R.
  now autorewrite with voice_rw.
Qed.

Module X := EntityExtractor.

Lemma scan_found (vocabulary : list (string * string)) (text v : string) :
  X.scan vocabulary text = Some v ->
  exists k, In (k, v) vocabulary /\ JS.includes text k = true.
Proof.
  unfold X.scan. destruct (find _ vocabulary) as [[k w]|] eqn:F; [|discriminate].
  intros [= <-]. apply find_some in F as [Hin Hk]. now exists k.
Qed.

(** C7.  For every text the extractor gives no key twice; a [condition]
    entry holds a condition of the vocabulary whose keyword is in the
    lower-cased text, a [severity] entry a level whose word is in it, and
    there is no other entry: a key with nothing found is left out.  The
    question on the heart attack risk gives the one entry
    [condition: heart_attack]. *)
Theorem extract_at_most_one_each (text : string) :
  NoDup (map fst (X.extract text)) /\
  (List.length (X.under "condition" (X.extract text)) <= 1)%nat /\
  (List.length (X.under "severity" (X.extract text)) <= 1)%nat /\
  (forall k v, In (k, v) (X.extract text) ->
     (k = "condition" /\
      In v ["heart_attack"; "stroke"; "heart_failure"; "arrhythmia"] /\
      exists w, In (w, v) X.conditions /\ JS.includes (JS.toLowerCase text) w = true)
     \/
     (k = "severity" /\
      In v ["low"; "medium"; "high"] /\
      exists w, In (w, v) X.severities /\ JS.includes (JS.toLowerCase text) w = true)) /\
  X.extract "What is my heart attack risk?" = [("condition", "heart_attack")].
Proof.
  assert (VC : forall w v, In (w, v) X.conditions ->
                 In v ["heart_attack"; "stroke"; "heart_failure"; "arrhythmia"]).
  { intros w v H. apply (in_map snd) in H. exact H. }
  assert (VS : forall w v, In (w, v) X.severities -> In v ["low"; "medium"; "high"]).
  { intros w v H. apply (in_map snd) in H. exact H. }
  unfold X.extract.
  destruct (X.scan X.conditions (JS.toLowerCase text)) as [c|] eqn:C;
    destruct (X.scan X.severities (JS.toLowerCase text)) as [s|] eqn:S;
    cbn [X.entry app map fst]; (split; [|split; [|split; [|split]]]);
    try (cbn; lia); try (vm_compute; reflexivity);
    try (repeat constructor; simpl; intuition discriminate).
  all: intros k v H; cbn [In] in H.
  all: repeat match goal with
         | H : _ \/ _ |- _ => destruct H as [H | H]
         | H : (_, _) = (_, _) |- _ => injection H as <- <-
         | H : False |- _ => destruct H
         end.
  all: try (left; split; [reflexivity|];
            destruct (scan_found _ _ _ C) as [w [Hin Hw]]; split; [eapply VC; eauto | eauto]).
  all: try (right; split; [reflexivity|];
            destruct (scan_found _ _ _ S) as [w [Hin Hw]]; split; [eapply VS; eauto | eauto]).
Qed.

(** The condition the extractor finds agrees with the keyword scan of
    [processNaturalLanguageQuery], which looks for [heart attack] and then
    for [stroke]. *)
Lemma extract_agrees_with_query_scan (text : string) :
  let q := JS.toLowerCase text in
  (JS.includes q "heart attack" = true ->
   X.scan X.conditions q = Some "heart_attack") /\
  (JS.includes q "heart attack" = false -> JS.includes q "stroke" = true ->
   X.scan X.conditions q = Some "stroke").
Proof.
  cbv zeta. unfold X.scan, X.conditions. cbn [find fst].
  split; [intros -> | intros -> ->]; reflexivity.
Qed.

(* ================================================================== *)
(** ** Further properties of the Enhanced Voice UI screen *)
(* ================================================================== *)

Ltac prims :=
  unfold E.addVoiceMessage, E.addHealthAlert, E.speak, E.stopListening, E.router_push.

Ltac literal_action :=
  unfold E.executeVoiceAction; cbn [String.eqb Ascii.eqb Bool.eqb].

Lemma length_alerts_addHealthAlert env txt sev ty st :
  List.length (E.healthAlerts (E.addHealthAlert env txt sev ty st)) =
  Nat.min 5 (S (List.length (E.healthAlerts st))).
Proof.
  rewrite <- (length_map E.alert_view), alerts_addHealthAlert.
  cbn [List.length]. rewrite length_map, length_firstn. lia.
Qed.

Lemma alerts_router_push path st : E.healthAlerts (E.router_push path st) = E.healthAlerts st.
Proof. reflexivity. Qed.

Lemma alerts_stopListening r st :
  E.healthAlerts (E.stopListening r st) = E.healthAlerts st.
Proof. unfold E.stopListening. destruct (E.Render.isListening r); reflexivity. Qed.

Lemma length_alerts_action r env a t st :
  (List.length (E.healthAlerts (E.executeVoiceAction r env a t st))
   <= Nat.max 5 (List.length (E.healthAlerts st)))%nat.
Proof.
  unfold E.executeVoiceAction. handlers. branches;
    rewrite ?alerts_addVoiceMessage, ?alerts_router_push, ?length_alerts_addHealthAlert,
      ?alerts_addVoiceMessage, ?alerts_stopListening; lia.
Qed.

(** X1.  The list of health alerts never outgrows five: an alert added
    comes first and keeps the four newest of the others, and no command,
    from whichever render, leaves more alerts than five, or than there
    were. *)
Theorem alerts_stay_capped (r : E.Render.t) (env : E.Env) (t : string) (st : E.State) :
  (forall txt sev ty,
     map E.alert_view (E.healthAlerts (E.addHealthAlert env txt sev ty st)) =
     (txt, sev, ty) :: firstn 4 (map E.alert_view (E.healthAlerts st)) /\
     List.length (E.healthAlerts (E.addHealthAlert env txt sev ty st)) =
     Nat.min 5 (S (List.length (E.healthAlerts st)))) /\
  (List.length (E.healthAlerts (E.processVoiceCommand r env t st))
   <= Nat.max 5 (List.length (E.healthAlerts st)))%nat.
Proof.
  split.
  - intros txt sev ty. split.
    + now rewrite alerts_addHealthAlert, firstn_map.
    + apply length_alerts_addHealthAlert.
  - rewrite processVoiceCommand_intent, alerts_setIsProcessing.
    apply (length_alerts_action r env (E.intent t) t (E.setIsProcessing true st)).
Qed.

(** X2.  On an emergency request, when there is a speech synthesizer,
    all that is left to be read out is the alert: reading it at high
    priority cancels the reading of the answer that tells to call 911. *)
Theorem emergency_answer_is_cut_off (r : E.Render.t) (env : E.Env) (t : string)
    (st : E.State) :
  E.intent t = "emergency_help" -> E.synth st = true ->
  E.utterances (E.processVoiceCommand r env t st)
  = ["Important alert: Emergency resources available if needed"] /\
  ~ In E.emergency_message (E.utterances (E.processVoiceCommand r env t st)).
Proof.
  intros I S.
  assert (U : E.utterances (E.processVoiceCommand r env t st)
              = ["Important alert: Emergency resources available if needed"]).
  { rewrite processVoiceCommand_intent, I, executeVoiceAction_emergency.
    destruct st; cbn in S; subst. reflexivity. }
  split; [exact U|]. rewrite U. intros [H | []]. discriminate H.
Qed.

Lemma emergency_answer_is_cut_off_witness :
  E.utterances
    (E.processVoiceCommand E.mount {| E.now := 0; E.random := 0 |}
       "this is an EMERGENCY" E.fresh)
  = ["Important alert: Emergency resources available if needed"].
Proof.
  apply (emergency_answer_is_cut_off E.mount {| E.now := 0; E.random := 0 |}
           "this is an EMERGENCY" E.fresh).
  - vm_compute. reflexivity.
  - reflexivity.
Defined.

Lemma joined_no_final (ev : E.SpeechEvent) :
  Forall (fun r => E.Result.isFinal r = false) (skipn (E.resultIndex ev) (E.results ev)) ->
  E.joined true ev = "".
Proof.
  unfold E.joined. induction (skipn (E.resultIndex ev) (E.results ev)) as [|r l IH].
  - reflexivity.
  - intros H. inversion H as [|? ? Hr Hl]; subst. cbn [filter]. rewrite Hr.
    cbn [Bool.eqb]. now apply IH.
Qed.

(** What a recognition event with a final transcript adds to the
    conversation: the transcript, said by the user, and the one answer
    that the command of the first render gives. *)
Lemma onresult_messages (env : E.Env) (ev : E.SpeechEvent) (scr : E.Screen) :
  E.joined true ev <> "" ->
  E.state (E.onresult env ev scr) =
  E.processVoiceCommand E.mount env (E.joined true ev)
    (E.addVoiceMessage env E.user (E.joined true ev)
       (last (map (fun r => Some (E.Result.confidence r)) (E.results ev)) None)
       (E.state scr)).
Proof.
  intros N. unfold E.onresult. cbn [E.state].
  destruct (E.joined true ev =? "")%string eqn:J; [|reflexivity].
  apply String.eqb_eq in J. contradiction.
Qed.

Lemma intent_not_empty (t : string) : E.intent t <> "unknown" -> t <> ""%string.
Proof. intros H ->. apply H. vm_compute. reflexivity. Qed.

(** X3.  A spoken request to repeat never repeats anything.  The answer
    of [repeat_last] quotes the last message of the assistant that the
    render of its handler had; the recogniser runs the handler of the
    first render, which had no message: whatever the conversation holds by
    then, the answer is that there is no previous result to repeat. *)
Theorem spoken_repeat_finds_nothing (env : E.Env) (t : string) :
  E.intent t = "repeat_last" ->
  (forall r st,
     map E.message_view (E.voiceMessages (E.processVoiceCommand r env t st)) =
     map E.message_view (E.voiceMessages st)
     ++ [(E.assistant,
          match E.lastAssistantMessage r with
          | Some m => ("I'll repeat that: " ++ E.VoiceMessage.text m)%string
          | None => E.nothing_to_repeat_message
          end, None)]) /\
  (forall ev scr,
     E.joined true ev = t ->
     map E.message_view (E.voiceMessages (E.state (E.onresult env ev scr))) =
     map E.message_view (E.voiceMessages (E.state scr))
     ++ [ (E.user, t, last (map (fun r => Some (E.Result.confidence r)) (E.results ev)) None);
          (E.assistant, E.nothing_to_repeat_message, None) ]).
Proof.
  intros I.
  assert (G : forall r st,
     map E.message_view (E.voiceMessages (E.processVoiceCommand r env t st)) =
     map E.message_view (E.voiceMessages st)
     ++ [(E.assistant,
          match E.lastAssistantMessage r with
          | Some m => ("I'll repeat that: " ++ E.VoiceMessage.text m)%string
          | None => E.nothing_to_repeat_message
          end, None)]).
  { intros r st. rewrite processVoiceCommand_intent, I.
    change (E.executeVoiceAction r env "repeat_last" t (E.setIsProcessing true st))
      with (E.repeatLastResult r env (E.setIsProcessing true st)).
    unfold E.repeatLastResult.
    destruct (E.lastAssistantMessage r); now autorewrite with voice_rw. }
  split; [exact G|].
  intros ev scr J.
  assert (N : E.joined true ev <> ""%string).
  { rewrite J. apply intent_not_empty. rewrite I. discriminate. }
  rewrite (onresult_messages env ev scr N), J, G, messages_addVoiceMessage, <- app_assoc.
  reflexivity.
Qed.

(** An answer has been given; the user then says [say that again]. *)
Lemma spoken_repeat_finds_nothing_witness :
  let env := {| E.now := 2; E.random := 0 |} in
  let answered :=
    E.processVoiceCommand E.mount {| E.now := 1; E.random := 0 |} "next question" E.fresh in
  let ev := {| E.resultIndex := 0;
               E.results := [ {| E.Result.transcript := "say that again";
                                 E.Result.isFinal := true;
                                 E.Result.confidence := 9 # 10 |} ] |} in
  map E.message_view
    (E.voiceMessages
       (E.state (E.onresult env ev {| E.state := answered; E.currentTranscript := "" |})))
  = [ (E.assistant,
       "Let's continue. What else would you like to know about your heart health?", None);
      (E.user, "say that again", Some (9 # 10));
      (E.assistant, E.nothing_to_repeat_message, None) ].
Proof.
  cbv zeta.
  exact (proj2 (spoken_repeat_finds_nothing {| E.now := 2; E.random := 0 |}
                  "say that again" ltac:(vm_compute; reflexivity))
               {| E.resultIndex := 0;
                  E.results := [ {| E.Result.transcript := "say that again";
                                    E.Result.isFinal := true;
                                    E.Result.confidence := 9 # 10 |} ] |}
               {| E.state :=
                    E.processVoiceCommand E.mount {| E.now := 1; E.random := 0 |}
                      "next question" E.fresh;
                  E.currentTranscript := "" |}
               eq_refl).
Defined.

Ltac literal_case C :=
  destruct C as [<- | C];
  [ literal_action; handlers; prims;
    repeat split; intros; try discriminate; try congruence;
    branches; try reflexivity; try (cbn in *; congruence) | ].

(** X4.  What a command leaves alone, from whichever render it is run:
    the risk data and the synthesizer always, the route unless the intent
    is [start_assessment] (which pushes the assessment page), the alerts
    unless it is [medication_reminder] or [emergency_help]; the processing
    flag is down at the end.  The listening flag is cleared only by
    [stop_listening], and only when the render of the handler had it set:
    a command of the first render, the one the recogniser runs, leaves it
    as it is, so that the words [stop listening] do not stop the
    recogniser. *)
Theorem command_frame (r : E.Render.t) (env : E.Env) (t : string) (st : E.State) :
  let st' := E.processVoiceCommand r env t st in
  E.riskData st' = E.riskData st /\
  E.synth st' = E.synth st /\
  E.isProcessing st' = false /\
  (E.intent t = "start_assessment" -> E.route st' = E.route st ++ ["/assessment"]) /\
  (E.intent t <> "start_assessment" -> E.route st' = E.route st) /\
  (E.intent t = "stop_listening" -> E.Render.isListening r = true ->
   E.isListening st' = false) /\
  (E.intent t <> "stop_listening" \/ E.Render.isListening r = false ->
   E.isListening st' = E.isListening st) /\
  (E.intent t <> "medication_reminder" -> E.intent t <> "emergency_help" ->
   E.healthAlerts st' = E.healthAlerts st) /\
  E.isListening (E.processVoiceCommand E.mount env t st) = E.isListening st.
Proof.
  cbv zeta. rewrite !processVoiceCommand_intent.
  assert (L : forall r0,
            E.isListening
              (E.setIsProcessing false
                 (E.executeVoiceAction r0 env (E.intent t) t (E.setIsProcessing true st)))
            = if (E.intent t =? "stop_listening")%string && E.Render.isListening r0
              then false else E.isListening st).
  { intros r0. pose proof (intent_cases t) as C. cbn [In] in C.
    do 10 (destruct C as [<- | C];
           [ literal_action; handlers; prims; cbn [andb]; branches; reflexivity | ]).
    destruct C. }
  assert (F : E.riskData
                (E.setIsProcessing false
                   (E.executeVoiceAction r env (E.intent t) t (E.setIsProcessing true st)))
              = E.riskData st /\
              E.synth
                (E.setIsProcessing false
                   (E.executeVoiceAction r env (E.intent t) t (E.setIsProcessing true st)))
              = E.synth st /\
              E.isProcessing
                (E.setIsProcessing false
                   (E.executeVoiceAction r env (E.intent t) t (E.setIsProcessing true st)))
              = false /\
              (E.intent t = "start_assessment" ->
               E.route
                 (E.setIsProcessing false
                    (E.executeVoiceAction r env (E.intent t) t (E.setIsProcessing true st)))
               = E.route st ++ ["/assessment"]) /\
              (E.intent t <> "start_assessment" ->
               E.route
                 (E.setIsProcessing false
                    (E.executeVoiceAction r env (E.intent t) t (E.setIsProcessing true st)))
               = E.route st) /\
              (E.intent t <> "medication_reminder" -> E.intent t <> "emergency_help" ->
               E.healthAlerts
                 (E.setIsProcessing false
                    (E.executeVoiceAction r env (E.intent t) t (E.setIsProcessing true st)))
               = E.healthAlerts st)).
  { pose proof (intent_cases t) as C. cbn [In] in C.
    do 10 literal_case C. destruct C. }
  destruct F as [F1 [F2 [F3 [F4 [F5 F6]]]]].
  repeat split; try assumption.
  - intros I R. rewrite L, I, R. reflexivity.
  - intros [I | R]; rewrite L.
    + apply String.eqb_neq in I. rewrite I. reflexivity.
    + rewrite R, andb_false_r. reflexivity.
  - rewrite L. cbn [E.mount E.Render.isListening]. rewrite andb_false_r. reflexivity.
Qed.

(** The words [stop listening], heard while the recogniser listens, leave
    it listening. *)
Lemma command_frame_witness :
  E.intent "stop listening" = "stop_listening" /\
  E.isListening E.fresh = true /\
  E.isListening (E.processVoiceCommand E.mount {| E.now := 0; E.random := 0 |}
                   "stop listening" E.fresh) = true /\
  E.route (E.processVoiceCommand E.mount {| E.now := 0; E.random := 0 |}
             "Start a new assessment" E.fresh) = ["/assessment"].
Proof.
  split; [vm_compute; reflexivity|]. split; [reflexivity|].
  destruct (command_frame E.mount {| E.now := 0; E.random := 0 |} "stop listening" E.fresh)
    as [_ [_ [_ [_ [_ [_ [L _]]]]]]].
  destruct (command_frame E.mount {| E.now := 0; E.random := 0 |}
              "Start a new assessment" E.fresh)
    as [_ [_ [_ [R _]]]].
  split.
  - apply L. right. reflexivity.
  - apply R. vm_compute. reflexivity.
Defined.

(** X5.  The quick action "Get Tips" never gives a tip: its phrase,
    [give me health tips], matches no rule of the table and none of the
    keywords of the fallback, so in every state the answer is the generic
    question. *)
Theorem quick_tips_gives_no_tip (env : E.Env) (st : E.State) :
  E.intent "give me health tips" = "unknown" /\
  E.samples_tip "give me health tips" = false /\
  map E.message_view (E.voiceMessages (E.quickGetTips env st)) =
  map E.message_view (E.voiceMessages st) ++ [(E.assistant, E.generic_message, None)].
Proof.
  split; [vm_compute; reflexivity|]. split; [vm_compute; reflexivity|].
  unfold E.quickGetTips.
  rewrite processVoiceCommand_intent.
  change (E.executeVoiceAction (E.render st) env (E.intent "give me health tips")
            "give me health tips" (E.setIsProcessing true st))
    with (E.addVoiceMessage env E.assistant E.generic_message None (E.setIsProcessing true st)).
  now autorewrite with voice_rw.
Qed.

(** X18.  The quick action "Show Risk" is a button of the screen as it
    shows: its phrase, [show current risk], matches the first rule, and
    its handler reads the risk data of the current render.  It tells the
    five scores and the trend when there are risk data, and that there are
    none when there are none. *)
Theorem show_risk_button_reads_the_data (env : E.Env) (st : E.State) :
  E.intent "show current risk" = "show_risk" /\
  (E.riskData st = None ->
   map E.message_view (E.voiceMessages (E.quickShowRisk env st)) =
   map E.message_view (E.voiceMessages st)
   ++ [(E.assistant, E.no_risk_data_message, None)]) /\
  (forall d, E.riskData st = Some d ->
   map E.message_view (E.voiceMessages (E.quickShowRisk env st)) =
   map E.message_view (E.voiceMessages st)
   ++ [(E.assistant,
        ("Your overall cardiovascular risk score is " ++ JS.show_int (E.overall_score d)
         ++ "%. Breaking this down: Heart attack risk is " ++ JS.show_int (E.heart_attack d)
         ++ "%, stroke risk is " ++ JS.show_int (E.stroke d)
         ++ "%, heart failure risk is " ++ JS.show_int (E.heart_failure d)
         ++ "%, and arrhythmia risk is " ++ JS.show_int (E.arrhythmia d)
         ++ "%. Your risk trend is currently " ++ E.trend_tag (E.trend d)
         ++ ". Would you like me to explain what these numbers mean?")%string,
        None)]).
Proof.
  assert (I : E.intent "show current risk" = "show_risk") by (vm_compute; reflexivity).
  split; [exact I|].
  unfold E.quickShowRisk. rewrite processVoiceCommand_intent, I.
  change (E.executeVoiceAction (E.render st) env "show_risk" "show current risk"
            (E.setIsProcessing true st))
    with (E.showCurrentRisk (E.render st) env (E.setIsProcessing true st)).
  unfold E.showCurrentRisk. cbn [E.render E.Render.riskData].
  split.
  - intros ->. now autorewrite with voice_rw.
  - intros d ->. now autorewrite with voice_rw.
Qed.

Lemma round_small (p : Q) : 0 <= p -> p < 1 # 200 -> E.round (p * 100) = 0%Z.
Proof.
  intros H0 H1. unfold E.round, JS.floor.
  assert (L : (0 <= Qfloor (p * 100 + (1 # 2)))%Z).
  { change 0%Z with (Qfloor 0). apply Qfloor_resp_le. lra. }
  assert (U : (Qfloor (p * 100 + (1 # 2)) < 1)%Z).
  { rewrite Zlt_Qlt. apply Qle_lt_trans with (p * 100 + (1 # 2)); [apply Qfloor_le | unfold inject_Z; lra]. }
  lia.
Qed.

(** X6.  With no risk data, and with a heart attack probability below
    half a percent (stored as 0), a query outside the table that speaks of
    a heart attack is answered with the level "moderate": the answer
    names a level that no assessment gave.  A spoken query, which the
    handler of the first render answers, always gets this answer, whatever
    the risk data are by then. *)
Theorem heart_attack_level_without_data (env : E.Env) (q : string) (st : E.State) :
  E.matchedCommand q = None ->
  JS.includes (JS.toLowerCase q) "heart attack" = true ->
  let answer := "Based on your latest assessment, your heart attack risk is moderate level. This is calculated using multiple factors including your age, lifestyle, and medical history. Would you like me to explain which factors are contributing most to this risk?"%string in
  (forall r,
     E.Render.riskData r = None ->
     map E.message_view (E.voiceMessages (E.processVoiceCommand r env q st)) =
     map E.message_view (E.voiceMessages st) ++ [(E.assistant, answer, None)]) /\
  (forall latest rest risks st0,
     E.prediction_result latest = Some risks ->
     0 <= E.probability_or_0 risks "heart_attack" ->
     E.probability_or_0 risks "heart_attack" < 1 # 200 ->
     map E.message_view
       (E.voiceMessages
          (E.processVoiceCommand
             (E.render (E.fetchLatestRiskData (E.Resolved (latest :: rest)) st0))
             env q st)) =
     map E.message_view (E.voiceMessages st) ++ [(E.assistant, answer, None)]) /\
  map E.message_view (E.voiceMessages (E.processVoiceCommand E.mount env q st)) =
  map E.message_view (E.voiceMessages st) ++ [(E.assistant, answer, None)].
Proof.
  intros M K. cbv zeta. unfold E.processVoiceCommand. rewrite M.
  unfold E.processNaturalLanguageQuery. rewrite K.
  assert (G : forall r, E.Render.riskData r = None ->
     map E.message_view
       (E.voiceMessages
          (E.setIsProcessing false
             (E.addVoiceMessage env E.assistant
                ("Based on your latest assessment, your heart attack risk is "
                 ++ E.level_or E.heart_attack "moderate" r
                 ++ " level. This is calculated using multiple factors including your age, lifestyle, and medical history. Would you like me to explain which factors are contributing most to this risk?")
                None (E.setIsProcessing true st)))) =
     map E.message_view (E.voiceMessages st)
     ++ [(E.assistant, "Based on your latest assessment, your heart attack risk is moderate level. This is calculated using multiple factors including your age, lifestyle, and medical history. Would you like me to explain which factors are contributing most to this risk?"%string, None)]).
  { intros r R. autorewrite with voice_rw.
    unfold E.level_or. rewrite R. reflexivity. }
  split; [exact G|]. split; [|apply G; reflexivity].
  intros latest rest risks st0 P H0 H1. autorewrite with voice_rw.
  unfold E.level_or, E.fetchLatestRiskData. rewrite P.
  cbn [E.render E.Render.riskData E.riskData E.setRiskData E.heart_attack].
  unfold E.percentage. rewrite (round_small _ H0 H1). reflexivity.
Qed.

Lemma heart_attack_level_without_data_witness :
  map E.message_view
    (E.voiceMessages
       (E.processVoiceCommand E.mount {| E.now := 0; E.random := 0 |}
          "tell me about heart attack" E.fresh))
  = map E.message_view (E.voiceMessages E.fresh)
    ++ [(E.assistant,
         "Based on your latest assessment, your heart attack risk is moderate level. This is calculated using multiple factors including your age, lifestyle, and medical history. Would you like me to explain which factors are contributing most to this risk?"%string,
         None)].
Proof.
  exact (proj2 (proj2 (heart_attack_level_without_data {| E.now := 0; E.random := 0 |}
                  "tell me about heart attack" E.fresh
                  ltac:(vm_compute; reflexivity) ltac:(vm_compute; reflexivity)))).
Defined.

(** X8.  A recognition event reaches the command processor only through
    its final results: an event whose final transcript is empty (all its
    results from [resultIndex] on are interim, say) changes nothing of the
    state; any other adds two messages, the final transcript said by the
    user, with the confidence of the last result, and one answer of the
    assistant.  The answer is that of the first render, whose handlers the
    recogniser holds: a spoken request for the risk is told that there are
    no risk data, whatever data the screen shows. *)
Theorem only_final_results_are_processed (env : E.Env) (ev : E.SpeechEvent)
    (scr : E.Screen) :
  (E.joined true ev = "" -> E.state (E.onresult env ev scr) = E.state scr) /\
  (Forall (fun r => E.Result.isFinal r = false)
     (skipn (E.resultIndex ev) (E.results ev)) ->
   E.state (E.onresult env ev scr) = E.state scr /\
   E.currentTranscript (E.onresult env ev scr) = E.joined false ev) /\
  (E.joined true ev <> "" ->
   exists reply,
     map E.message_view (E.voiceMessages (E.state (E.onresult env ev scr))) =
     map E.message_view (E.voiceMessages (E.state scr))
     ++ [ (E.user, E.joined true ev,
           last (map (fun r => Some (E.Result.confidence r)) (E.results ev)) None);
          (E.assistant, reply, None) ] /\
     (E.intent (E.joined true ev) = "show_risk" -> reply = E.no_risk_data_message)).
Proof.
  split; [|split].
  - unfold E.onresult. cbn [E.state]. intros ->. reflexivity.
  - unfold E.onresult. cbn [E.state E.currentTranscript].
    intros H. rewrite (joined_no_final ev H). cbn [String.eqb].
    split; [reflexivity|]. now destruct (E.joined false ev =? "")%string eqn:J;
      [apply String.eqb_eq in J|].
  - intros N. rewrite (onresult_messages env ev scr N).
    set (st1 := E.addVoiceMessage env E.user (E.joined true ev)
                  (last (map (fun r => Some (E.Result.confidence r)) (E.results ev)) None)
                  (E.state scr)).
    assert (V1 : map E.message_view (E.voiceMessages st1) =
                 map E.message_view (E.voiceMessages (E.state scr))
                 ++ [(E.user, E.joined true ev,
                      last (map (fun r => Some (E.Result.confidence r)) (E.results ev)) None)])
      by apply messages_addVoiceMessage.
    destruct (String.eqb_spec (E.intent (E.joined true ev)) "show_risk") as [I | I].
    + exists E.no_risk_data_message. split; [|reflexivity].
      rewrite (showCurrentRisk_without_data E.mount env _ st1 I eq_refl), V1, <- app_assoc.
      reflexivity.
    + destruct (processVoiceCommand_one_message E.mount env (E.joined true ev) st1)
        as [reply H].
      exists reply. split; [|intros I'; contradiction].
      rewrite H, V1, <- app_assoc. reflexivity.
Qed.

(** The screen shows risk data; the user asks for the risk. *)
Lemma only_final_results_are_processed_witness :
  let interim := {| E.Result.transcript := "show my"; E.Result.isFinal := false;
                    E.Result.confidence := 1 # 2 |} in
  let final := {| E.Result.transcript := "show my risk"; E.Result.isFinal := true;
                  E.Result.confidence := 9 # 10 |} in
  let data := {| E.overall_score := 30; E.heart_attack := 44; E.stroke := 13;
                 E.heart_failure := 5; E.arrhythmia := 2;
                 E.last_updated := "2025-01-01"; E.trend := E.stable |} in
  let scr := {| E.state := E.setRiskData (Some data) E.fresh; E.currentTranscript := "" |} in
  E.state (E.onresult {| E.now := 0; E.random := 0 |}
             {| E.resultIndex := 0; E.results := [interim] |} scr) = E.state scr /\
  map E.message_view
    (E.voiceMessages
       (E.state (E.onresult {| E.now := 0; E.random := 0 |}
                   {| E.resultIndex := 1; E.results := [interim; final] |} scr)))
  = [ (E.user, "show my risk", Some (9 # 10));
      (E.assistant, E.no_risk_data_message, None) ].
Proof.
  cbv zeta. split.
  - exact (proj1 (only_final_results_are_processed {| E.now := 0; E.random := 0 |}
       {| E.resultIndex := 0;
          E.results :=
            [ {| E.Result.transcript := "show my"; E.Result.isFinal := false;
                 E.Result.confidence := 1 # 2 |} ] |}
       {| E.state :=
            E.setRiskData
              (Some {| E.overall_score := 30; E.heart_attack := 44; E.stroke := 13;
                       E.heart_failure := 5; E.arrhythmia := 2;
                       E.last_updated := "2025-01-01"; E.trend := E.stable |}) E.fresh;
          E.currentTranscript := "" |}) eq_refl).
  - destruct (proj2 (proj2 (only_final_results_are_processed {| E.now := 0; E.random := 0 |}
       {| E.resultIndex := 1;
          E.results :=
            [ {| E.Result.transcript := "show my"; E.Result.isFinal := false;
                 E.Result.confidence := 1 # 2 |};
              {| E.Result.transcript := "show my risk"; E.Result.isFinal := true;
                 E.Result.confidence := 9 # 10 |} ] |}
       {| E.state :=
            E.setRiskData
              (Some {| E.overall_score := 30; E.heart_attack := 44; E.stroke := 13;
                       E.heart_failure := 5; E.arrhythmia := 2;
                       E.last_updated := "2025-01-01"; E.trend := E.stable |}) E.fresh;
          E.currentTranscript := "" |}))
       ltac:(vm_compute; discriminate)) as [reply [H R]].
    rewrite H, (R ltac:(vm_compute; reflexivity)). reflexivity.
Defined.

(** X19.  A spoken question on the heart attack or the stroke risk that
    no rule of the table matches is answered by the handler of the first
    render, which has no risk data: the level named is the fallback word,
    [moderate] for the heart attack and [low] for the stroke, whatever
    risk data the screen holds. *)
Theorem spoken_query_gets_fallback_level (env : E.Env) (ev : E.SpeechEvent)
    (scr : E.Screen) :
  let q := E.joined true ev in
  let said := (E.user, q, last (map (fun r => Some (E.Result.confidence r)) (E.results ev)) None) in
  E.matchedCommand q = None ->
  (JS.includes (JS.toLowerCase q) "heart attack" = true ->
   map E.message_view (E.voiceMessages (E.state (E.onresult env ev scr))) =
   map E.message_view (E.voiceMessages (E.state scr))
   ++ [ said;
        (E.assistant,
         "Based on your latest assessment, your heart attack risk is moderate level. This is calculated using multiple factors including your age, lifestyle, and medical history. Would you like me to explain which factors are contributing most to this risk?"%string,
         None) ]) /\
  (JS.includes (JS.toLowerCase q) "heart attack" = false ->
   JS.includes (JS.toLowerCase q) "stroke" = true ->
   map E.message_view (E.voiceMessages (E.state (E.onresult env ev scr))) =
   map E.message_view (E.voiceMessages (E.state scr))
   ++ [ said;
        (E.assistant,
         "Your stroke risk is currently low level. Key factors that influence stroke risk include blood pressure, age, and lifestyle habits. Keep up the good work managing your cardiovascular health!"%string,
         None) ]).
Proof.
  cbv zeta. intros M.
  assert (P : forall w, JS.includes (JS.toLowerCase (E.joined true ev)) w = true ->
                        w <> ""%string -> E.joined true ev <> ""%string).
  { intros w H W E0. rewrite E0 in H. destruct w; [now apply W|]. cbn in H. discriminate H. }
  split.
  - intros K.
    rewrite (onresult_messages env ev scr (P _ K ltac:(discriminate))).
    unfold E.processVoiceCommand. rewrite M.
    unfold E.processNaturalLanguageQuery. rewrite K.
    autorewrite with voice_rw. rewrite <- app_assoc. reflexivity.
  - intros K1 K2.
    rewrite (onresult_messages env ev scr (P _ K2 ltac:(discriminate))).
    unfold E.processVoiceCommand. rewrite M.
    unfold E.processNaturalLanguageQuery. rewrite K1, K2.
    autorewrite with voice_rw. rewrite <- app_assoc. reflexivity.
Qed.

(** The screen shows a stroke risk of 13; the user asks about it. *)
Lemma spoken_query_gets_fallback_level_witness :
  let data := {| E.overall_score := 30; E.heart_attack := 44; E.stroke := 13;
                 E.heart_failure := 5; E.arrhythmia := 2;
                 E.last_updated := "2025-01-01"; E.trend := E.stable |} in
  let ev := {| E.resultIndex := 0;
               E.results := [ {| E.Result.transcript := "tell me about my stroke danger";
                                 E.Result.isFinal := true;
                                 E.Result.confidence := 8 # 10 |} ] |} in
  let scr := {| E.state := E.setRiskData (Some data) E.fresh; E.currentTranscript := "" |} in
  map E.message_view
    (E.voiceMessages (E.state (E.onresult {| E.now := 0; E.random := 0 |} ev scr)))
  = [ (E.user, "tell me about my stroke danger"%string, Some (8 # 10));
      (E.assistant,
       "Your stroke risk is currently low level. Key factors that influence stroke risk include blood pressure, age, and lifestyle habits. Keep up the good work managing your cardiovascular health!"%string,
       None) ].
Proof.
  cbv zeta.
  exact (proj2 (spoken_query_gets_fallback_level {| E.now := 0; E.random := 0 |}
                  {| E.resultIndex := 0;
                     E.results := [ {| E.Result.transcript := "tell me about my stroke danger";
                                       E.Result.isFinal := true;
                                       E.Result.confidence := 8 # 10 |} ] |}
                  {| E.state :=
                       E.setRiskData
                         (Some {| E.overall_score := 30; E.heart_attack := 44; E.stroke := 13;
                                  E.heart_failure := 5; E.arrhythmia := 2;
                                  E.last_updated := "2025-01-01"; E.trend := E.stable |})
                         E.fresh;
                     E.currentTranscript := "" |}
                  ltac:(vm_compute; reflexivity))
               ltac:(vm_compute; reflexivity) ltac:(vm_compute; reflexivity)).
Defined.

(* ================================================================== *)
(** ** What the patterns of the command table accept *)
(* ================================================================== *)

Lemma toLowerCase_app (a b : string) :
  JS.toLowerCase (a ++ b) = (JS.toLowerCase a ++ JS.toLowerCase b)%string.
Proof. induction a as [|c a IH]; simpl; [reflexivity | now rewrite IH]. Qed.

Lemma toLowerCase_split (s x y : string) :
  JS.toLowerCase s = (x ++ y)%string ->
  exists a b, s = (a ++ b)%string /\ JS.toLowerCase a = x /\ JS.toLowerCase b = y.
Proof.
  revert s; induction x as [|c x IH]; intros s H.
  - exists ""%string, s. auto.
  - destruct s as [|d s]; [discriminate|]. simpl in H. injection H as Hc H.
    destruct (IH s H) as [a [b [-> [Ha Hb]]]].
    exists (String d a), b. simpl. now rewrite Hc, Ha.
Qed.

(** The lower case of a character can be read off its canonical form. *)
Lemma canonical_decodes (c : ascii) :
  (if (RegExp.canonicalize c =? 376)%N then ascii_of_N 255
   else if (RegExp.canonicalize c =? 924)%N then ascii_of_N 181
   else JS.lower_unit (ascii_of_N (RegExp.canonicalize c))) = JS.lower_unit c.
Proof. destruct c as [[] [] [] [] [] [] [] []]; reflexivity. Qed.

(** Under the [i] flag a pattern character matches the characters with
    the same lower case. *)
Lemma chr_match_lower (p c : ascii) :
  RegExp.chr_match true p c = true <-> JS.lower_unit p = JS.lower_unit c.
Proof.
  unfold RegExp.chr_match. rewrite N.eqb_eq. split.
  - intros H. rewrite <- (canonical_decodes p), <- (canonical_decodes c).
    now rewrite H.
  - intros H. rewrite <- (canonicalize_lower p), <- (canonicalize_lower c).
    now rewrite H.
Qed.

Lemma lang_lit (w m : string) :
  RegExp.lang true (RegExp.lit w) m <-> JS.toLowerCase m = JS.toLowerCase w.
Proof.
  revert m; induction w as [|p w IH]; intros m.
  - cbn [RegExp.lit JS.toLowerCase]. split.
    + intros H. inversion H. reflexivity.
    + destruct m; [constructor | discriminate].
  - destruct w as [|p' w].
    + cbn [RegExp.lit JS.toLowerCase]. split.
      * intros H. inversion H as [|? c Hc| | | | | |]; subst.
        apply chr_match_lower in Hc. simpl. now rewrite Hc.
      * destruct m as [|c [|c' m]]; simpl; try discriminate.
        intros [= Hc]. constructor. now apply chr_match_lower.
    + change (RegExp.lit (String p (String p' w)))
        with (RegExp.Cat (RegExp.Chr p) (RegExp.lit (String p' w))).
      split.
      * intros H. inversion H as [| | | | |? ? s1 s2 H1 H2| |]; subst.
        inversion H1 as [|? c Hc| | | | | |]; subst.
        apply chr_match_lower in Hc. apply IH in H2.
        change (String c "" ++ s2)%string with (String c s2).
        change (JS.toLowerCase (String c s2))
          with (String (JS.lower_unit c) (JS.toLowerCase s2)).
        rewrite H2, <- Hc. reflexivity.
      * destruct m as [|c m]; [discriminate|].
        change (JS.toLowerCase (String c m))
          with (String (JS.lower_unit c) (JS.toLowerCase m)).
        change (JS.toLowerCase (String p (String p' w)))
          with (String (JS.lower_unit p) (JS.toLowerCase (String p' w))).
        intros [= Hc Hm].
        change (String c m) with (String c "" ++ m)%string.
        constructor; [constructor; now apply chr_match_lower | now apply IH].
Qed.

(** A bare word of a pattern with the [i] flag is looked for as
    [includes] looks for it in the lower-cased text. *)
Lemma search_lit (w s : string) :
  RegExp.search true (RegExp.lit w) s
  = JS.includes (JS.toLowerCase s) (JS.toLowerCase w).
Proof.
  apply eq_true_iff_eq. rewrite search_iff, includes_iff. split.
  - intros [pre [m [post [-> H]]]]. apply lang_lit in H.
    exists (JS.toLowerCase pre), (JS.toLowerCase post).
    now rewrite !toLowerCase_app, H.
  - intros [pre [post H]].
    apply toLowerCase_split in H as [a [b [-> [_ H]]]].
    apply toLowerCase_split in H as [m [c [-> [Hm _]]]].
    exists a, m, c. split; [reflexivity | now apply lang_lit].
Qed.

Lemma search_alt (i : bool) (r1 r2 : RegExp.regex) (s : string) :
  RegExp.search i (RegExp.Alt r1 r2) s = RegExp.search i r1 s || RegExp.search i r2 s.
Proof.
  apply eq_true_iff_eq. rewrite orb_true_iff, !search_iff. split.
  - intros [pre [m [post [E H]]]].
    inversion H; subst; [left | right]; now exists pre, m, post.
  - intros [[pre [m [post [E H]]]] | [pre [m [post [E H]]]]];
      exists pre, m, post; (split; [exact E|]);
      [now apply RegExp.lang_alt_l | now apply RegExp.lang_alt_r].
Qed.

Lemma find_within {A : Type} (f : A -> bool) (l : list A) (k : nat) (x : A) :
  nth_error l k = Some x -> f x = true ->
  exists y, find f l = Some y /\ In y (firstn (S k) l).
Proof.
  revert k; induction l as [|a l IH]; intros k Hk Hx.
  - destruct k; discriminate.
  - cbn [find]. destruct (f a) eqn:Fa.
    + exists a. split; [reflexivity | now left].
    + destruct k as [|k]; cbn [nth_error] in Hk.
      * injection Hk as ->. congruence.
      * destruct (IH k Hk Hx) as [y [Fy Iy]]. exists y. split; [exact Fy|].
        now right.
Qed.

Lemma table_action_known (a : string) :
  In a (map E.action E.voiceCommands) -> a <> "unknown".
Proof.
  cbn [map E.voiceCommands E.action In].
  intros H. repeat (destruct H as [<- | H]; [discriminate|]). destruct H.
Qed.

Lemma in_firstn {A : Type} (n : nat) (l : list A) (x : A) :
  In x (firstn n l) -> In x l.
Proof.
  intros H. rewrite <- (firstn_skipn n l). apply in_or_app. now left.
Qed.

(** X9.  A transcript that holds one of the bare words of the table
    ([pills], [emergency], [continue], [proceed], [repeat], [pause],
    [quiet]), in any letter case, is never left to the fallback: its intent
    is the action of the rule of the word or of a rule before it. *)
Theorem bare_word_is_caught (t w : string) (k : nat) :
  In (w, k) E.bare_words ->
  JS.includes (JS.toLowerCase t) w = true ->
  In (E.intent t) (map E.action (firstn (S k) E.voiceCommands)) /\
  E.intent t <> "unknown".
Proof.
  intros Hin Hw.
  assert (T : exists cmd, nth_error E.voiceCommands k = Some cmd /\
                          RegExp.test (E.pattern cmd) t = true).
  { unfold E.bare_words in Hin. cbn [In] in Hin.
    repeat (destruct Hin as [Hin | Hin];
            [ injection Hin as <- <-; eexists; split; [reflexivity|];
              unfold RegExp.test; cbn [E.pattern E.i_ RegExp.source RegExp.ignoreCase];
              unfold RegExp.alt3; rewrite !search_alt, !search_lit;
              cbn [JS.toLowerCase]; 
              repeat match goal with
                     | |- context [JS.lower_unit ?c] =>
                         let v := eval vm_compute in (JS.lower_unit c) in
                         change (JS.lower_unit c) with v
                     end;
              rewrite Hw; now rewrite ?orb_true_r | ]).
    destruct Hin. }
  destruct T as [cmd [Hk Ht]].
  destruct (find_within (fun c => RegExp.test (E.pattern c) t) _ _ _ Hk Ht) as [y [Fy Iy]].
  assert (I : E.intent t = E.action y).
  { unfold E.intent, E.matchedCommand. now rewrite Fy. }
  split.
  - rewrite I. now apply in_map.
  - rewrite I. apply table_action_known, in_map. now apply in_firstn in Iy.
Qed.

Lemma bare_word_is_caught_witness :
  In (E.intent "Is this an EMERGENCY or what")
     ["show_risk"; "start_assessment"; "explain_results"; "medication_reminder";
      "emergency_help"].
Proof.
  refine (proj1 (bare_word_is_caught "Is this an EMERGENCY or what" "emergency" 4 _ _)).
  - unfold E.bare_words. cbn [In]. auto.
  - vm_compute. reflexivity.
Defined.

Lemma lang_star_dot (i : bool) (m : string) :
  RegExp.lang i (RegExp.Star RegExp.Dot) m <-> RegExp.one_line m = true.
Proof.
  split.
  - intros H. remember (RegExp.Star RegExp.Dot) as r eqn:R.
    induction H; try discriminate; [reflexivity|].
    injection R as ->.
    match goal with X : RegExp.lang i RegExp.Dot _ |- _ => inversion X; subst end.
    cbn [append RegExp.one_line].
    match goal with X : RegExp.dot_match _ = true |- _ => rewrite X end.
    now apply IHlang2.
  - induction m as [|c m IH]; cbn [RegExp.one_line]; intros H.
    + constructor.
    + apply andb_true_iff in H as [Hc Hm].
      change (String c m) with (String c "" ++ m)%string.
      constructor; [now constructor | now apply IH].
Qed.

(** X10.  What an alternative [a.*b] of the table accepts: the texts in
    which a part reads [a], a later part reads [b], both in any letter
    case, and no line terminator stands between the two. *)
Theorem gap_accepts (a b s : string) :
  RegExp.test (E.i_ (RegExp.gap a b)) s = true <->
  exists pre x mid y post,
    s = (pre ++ x ++ mid ++ y ++ post)%string /\
    JS.toLowerCase x = JS.toLowerCase a /\
    RegExp.one_line mid = true /\
    JS.toLowerCase y = JS.toLowerCase b.
Proof.
  unfold RegExp.test, E.i_, RegExp.gap. cbn [RegExp.source RegExp.ignoreCase].
  rewrite search_iff. split.
  - intros [pre [m [post [-> H]]]].
    inversion H as [| | | | |? ? x rest Hx Hrest| |]; subst.
    inversion Hrest as [| | | | |? ? mid y Hmid Hy| |]; subst.
    exists pre, x, mid, y, post. rewrite !append_assoc.
    repeat split; [now apply lang_lit | now apply (lang_star_dot true) | now apply lang_lit].
  - intros [pre [x [mid [y [post [-> [Hx [Hmid Hy]]]]]]]].
    exists pre, (x ++ mid ++ y)%string, post. split; [now rewrite !append_assoc|].
    constructor; [now apply lang_lit|].
    constructor; [now apply lang_star_dot | now apply lang_lit].
Qed.

(** The words [show] and [risk] on two lines are not a request for the
    risk; on one line they are. *)
Lemma gap_accepts_witness :
  RegExp.test (E.i_ (RegExp.gap "show" "risk")) "Please SHOW me my Risk" = true /\
  E.intent ("show" ++ String "010"%char "risk") = "unknown".
Proof.
  split; [|vm_compute; reflexivity].
  apply (proj2 (gap_accepts "show" "risk" "Please SHOW me my Risk")).
  exists "Please "%string, "SHOW"%string, " me my "%string, "Risk"%string, ""%string.
  repeat split.
Defined.

(* ================================================================== *)
(** ** Further properties of the AI Health Coach screen *)
(* ================================================================== *)

Lemma phrase_matches_itself (cmd : V.VoiceCommand) :
  In cmd V.voiceCommands -> V.matchedCommand (V.command cmd) = Some cmd.
Proof.
  intros H. unfold V.voiceCommands in H. cbn [In] in H.
  repeat (destruct H as [<- | H]; [vm_compute; reflexivity|]). destruct H.
Qed.

(** X11.  Every phrase of the command table finds its own command and
    executes its action.  Heard in any letter case and with blanks around
    it, the phrase does what its button of "Try These Commands" does; and
    the button, after it has put the phrase in the conversation, pushes
    the page of a navigation command on the router, or calls the handler
    of the command ([explainLatestResults] and [getPersonalizedTips]
    before the [Executing] line is said, the rest of [getLatestRisk] after
    it). *)
Theorem phrase_runs_its_command (percent : Q -> string) (env : V.Env)
    (cmd : V.VoiceCommand) (st : V.State) :
  In cmd V.voiceCommands ->
  V.matchedCommand (V.command cmd) = Some cmd /\
  (forall heard,
     JS.trim (JS.toLowerCase heard) = V.command cmd ->
     V.classify heard = Some cmd /\
     V.onresult percent env heard st =
     V.pressCommand percent env cmd (V.setTranscript (V.command cmd) st)) /\
  let st0 := V.addToConversation env V.user (V.command cmd) st in
  let st' := V.pressCommand percent env cmd st in
  let line := ("Executing: " ++ V.description cmd)%string in
  match V.action cmd with
  | V.Push path =>
      V.route st' = V.route st ++ [path] /\
      V.messages st' = V.messages st ++ [V.command cmd; line]
  | V.GetLatestRisk riskType =>
      st' = V.getLatestRisk percent env riskType
              (V.speak line (V.addToConversation env V.ai line st0))
  | V.ExplainLatestResults =>
      st' = V.speak line (V.addToConversation env V.ai line (V.explainLatestResults env st0))
  | V.GetPersonalizedTips =>
      st' = V.speak line (V.addToConversation env V.ai line (V.getPersonalizedTips env st0))
  end.
Proof.
  intros Hin. pose proof (phrase_matches_itself cmd Hin) as M.
  split; [exact M|]. split.
  - intros heard H. unfold V.classify, V.onresult, V.pressCommand.
    rewrite H. auto.
  - cbv zeta. unfold V.pressCommand, V.processVoiceCommand. rewrite M.
    pose proof (runCommand_does percent env cmd
                  (V.addToConversation env V.user (V.command cmd) st)) as D.
    cbv zeta in D. destruct (V.action cmd); try exact D.
    destruct D as [D1 D2]. split; [exact D1|].
    rewrite D2. unfold V.messages, V.addToConversation. cbn.
    rewrite map_app, <- app_assoc. reflexivity.
Qed.

(** [Go HOME], heard with blanks around it, goes to the home page. *)
Lemma phrase_runs_its_command_witness :
  let env := {| V.now := 0; V.random := 0; V.recent_predictions := V.Resolved [] |} in
  option_map V.command (V.classify "  Go HOME ") = Some "go home"%string /\
  V.route (V.onresult (fun _ => ""%string) env "  Go HOME " V.fresh) = ["/"%string] /\
  V.messages (V.onresult (fun _ => ""%string) env "  Go HOME " V.fresh)
  = ["go home"%string; "Executing: Return to home dashboard"%string].
Proof.
  cbv zeta.
  destruct (phrase_runs_its_command (fun _ => ""%string)
              {| V.now := 0; V.random := 0; V.recent_predictions := V.Resolved [] |}
              (nth 3 V.voiceCommands
                 {| V.command := ""; V.action := V.ExplainLatestResults;
                    V.description := "" |})
              V.fresh) as [_ [H _]].
  { cbn. auto. }
  destruct (phrase_runs_its_command (fun _ => ""%string)
              {| V.now := 0; V.random := 0; V.recent_predictions := V.Resolved [] |}
              (nth 3 V.voiceCommands
                 {| V.command := ""; V.action := V.ExplainLatestResults;
                    V.description := "" |})
              (V.setTranscript "go home" V.fresh)) as [_ [_ [R S]]].
  { cbn. auto. }
  destruct (H "  Go HOME "%string) as [C O].
  { vm_compute. reflexivity. }
  rewrite C, O. split; [reflexivity|]. split; [exact R | exact S].
Defined.

(** A transcript that holds some phrase is matched by the phrases it
    holds, and by no other. *)
Lemma matched_by_inclusion (t : string) :
  (exists c, In c V.voiceCommands /\ JS.includes t (V.command c) = true) ->
  V.matchedCommand t = find (fun c => JS.includes t (V.command c)) V.voiceCommands.
Proof.
  intros [c0 [H0 Q0]]. unfold V.matchedCommand. apply find_ext_in.
  intros c Hc. destruct (JS.includes t (V.command c)) eqn:P; [reflexivity|].
  cbn [orb]. destruct (JS.includes (V.command c) t) eqn:Q; [|reflexivity].
  assert (I : JS.includes (V.command c) (V.command c0) = true)
    by (apply includes_trans with t; assumption).
  apply (phrase_inside c0 c H0 Hc) in I. rewrite I in Q0. congruence.
Qed.

(** X12.  A transcript that holds a command phrase among other words
    executes the action of the first command of the table whose phrase it
    holds: the page of a navigation command is pushed on the router, the
    handler of another command is called ([explainLatestResults] and
    [getPersonalizedTips] before the [Executing] line is said, the rest of
    [getLatestRisk] after it).  The query handler is not gone through. *)
Theorem phrase_inside_a_transcript_runs (percent : Q -> string) (env : V.Env)
    (t : string) (st : V.State) :
  (exists c, In c V.voiceCommands /\ JS.includes t (V.command c) = true) ->
  exists cmd,
    find (fun c => JS.includes t (V.command c)) V.voiceCommands = Some cmd /\
    let st' := V.processVoiceCommand percent env t st in
    let line := ("Executing: " ++ V.description cmd)%string in
    match V.action cmd with
    | V.Push path =>
        V.route st' = V.route st ++ [path] /\
        V.messages st' = V.messages st ++ [line]
    | V.GetLatestRisk riskType =>
        st' = V.getLatestRisk percent env riskType
                (V.speak line (V.addToConversation env V.ai line st))
    | V.ExplainLatestResults =>
        st' = V.speak line (V.addToConversation env V.ai line (V.explainLatestResults env st))
    | V.GetPersonalizedTips =>
        st' = V.speak line (V.addToConversation env V.ai line (V.getPersonalizedTips env st))
    end /\
    V.aiResponse st' = V.aiResponse st.
Proof.
  intros H. pose proof (matched_by_inclusion t H) as M.
  destruct (find (fun c => JS.includes t (V.command c)) V.voiceCommands) as [cmd|] eqn:F.
  - exists cmd. cbv zeta. unfold V.processVoiceCommand. rewrite M.
    destruct (runCommand_no_query percent env cmd st) as [A _].
    split; [reflexivity|]. split; [|exact A].
    apply (runCommand_does percent env cmd st).
  - destruct H as [c [Hin Hc]].
    rewrite find_none_iff in F. rewrite (F c Hin) in Hc. discriminate.
Qed.

(** Of [go home] and [view history] in one transcript, the one that
    comes first in the table runs: the history page is pushed. *)
Lemma phrase_inside_a_transcript_runs_witness :
  let st' :=
    V.processVoiceCommand (fun _ => ""%string)
      {| V.now := 0; V.random := 0; V.recent_predictions := V.Resolved [] |}
      "please go home or view history" V.fresh in
  V.route st' = ["/history"%string] /\
  V.messages st' = ["Executing: Check your assessment history"%string].
Proof.
  destruct (phrase_inside_a_transcript_runs (fun _ => ""%string)
              {| V.now := 0; V.random := 0; V.recent_predictions := V.Resolved [] |}
              "please go home or view history" V.fresh) as [cmd [F [R _]]].
  - exists (nth 3 V.voiceCommands
              {| V.command := ""; V.action := V.ExplainLatestResults; V.description := "" |}).
    split; [cbn; auto | vm_compute; reflexivity].
  - vm_compute in F. injection F as <-. exact R.
Defined.

(** X13.  A transcript of nothing but white space is normalised to the
    empty string, which lies inside every phrase: the first command runs,
    and the screen goes to the assessment page. *)
Theorem blank_transcript_starts_assessment (percent : Q -> string) (env : V.Env)
    (heard : string) (st : V.State) :
  JS.trim (JS.toLowerCase heard) = ""%string ->
  option_map V.command (V.classify heard) = Some "start assessment"%string /\
  V.route (V.onresult percent env heard st) = V.route st ++ ["/assessment"%string] /\
  V.messages (V.onresult percent env heard st) =
  V.messages st ++ [""%string; "Executing: Begin a new heart health assessment"%string].
Proof.
  intros H. unfold V.classify, V.onresult. rewrite H.
  split; [vm_compute; reflexivity|].
  change (V.processVoiceCommand percent env ""
            (V.addToConversation env V.user "" (V.setTranscript "" st)))
    with (V.speak "Executing: Begin a new heart health assessment"
            (V.addToConversation env V.ai "Executing: Begin a new heart health assessment"
               (V.router_push "/assessment"
                  (V.addToConversation env V.user "" (V.setTranscript "" st))))).
  unfold V.speak, V.messages.
  destruct (V.synth _); cbn; rewrite !map_app, <- app_assoc; auto.
Qed.

Lemma blank_transcript_starts_assessment_witness :
  V.route (V.onresult (fun _ => ""%string)
             {| V.now := 0; V.random := 0; V.recent_predictions := V.Resolved [] |}
             "   " V.fresh) = ["/assessment"%string].
Proof.
  refine (proj1 (proj2 (blank_transcript_starts_assessment (fun _ => ""%string)
            {| V.now := 0; V.random := 0; V.recent_predictions := V.Resolved [] |}
            "   " V.fresh _))).
  vm_compute. reflexivity.
Defined.

Ltac newest_is_read :=
  unfold V.newest, V.messages, V.speak, V.addToConversation, V.setConversationHistory,
    V.setUtterances, V.router_push, V.console_error, V.setAiResponse, V.setTimeout;
  cbn [V.synth V.utterances V.conversationHistory];
  repeat match goal with
         | H : ?x = true |- context [if ?x then _ else _] => rewrite H
         end;
  cbn [V.synth V.utterances V.conversationHistory];
  repeat match goal with
         | H : ?x = true |- context [if ?x then _ else _] => rewrite H
         end;
  cbn [V.synth V.utterances V.conversationHistory];
  rewrite ?map_app; cbn [map V.Entry.message]; rewrite ?last_last; reflexivity.

(** X14.  With a speech synthesizer, after any command all that is left
    to be read out is the newest message of the conversation: [speak]
    cancels what came before.  So the tip of [give me health tips] and the
    explanation of [explain my results], said before their [Executing]
    line, are cancelled by it. *)
Theorem only_newest_message_is_read (percent : Q -> string) (env : V.Env)
    (t : string) (st : V.State) :
  V.synth st = true ->
  V.utterances (V.processVoiceCommand percent env t st)
  = [V.newest (V.processVoiceCommand percent env t st)] /\
  (forall cmd, V.matchedCommand t = Some cmd ->
     V.action cmd = V.GetPersonalizedTips \/ V.action cmd = V.ExplainLatestResults ->
     V.utterances (V.processVoiceCommand percent env t st)
     = [("Executing: " ++ V.description cmd)%string]).
Proof.
  intros S. unfold V.processVoiceCommand.
  destruct (V.matchedCommand t) as [cmd|].
  - unfold V.runCommand, V.action_resume, V.action_call. split.
    + destruct (V.action cmd) as [path|riskType| |].
      * newest_is_read.
      * unfold V.getLatestRisk, V.getLatestRisk_try.
        destruct (V.recent_predictions env) as [|[|latest data]]; try newest_is_read.
        destruct (V.prediction_result latest) as [risks|]; try newest_is_read.
        destruct (V.lookup_risk riskType risks) as [risk|]; try newest_is_read.
        destruct (V.risk_level risk); newest_is_read.
      * unfold V.explainLatestResults. newest_is_read.
      * unfold V.getPersonalizedTips. newest_is_read.
    + intros cmd' [= <-] [A | A]; rewrite A.
      * unfold V.getPersonalizedTips. destruct st; cbn in S; subst. reflexivity.
      * unfold V.explainLatestResults. destruct st; cbn in S; subst. reflexivity.
  - split; [|intros cmd H; discriminate H].
    unfold V.handleAIQuery.
    destruct (V.AIResponse.action (V.getAIHealthCoachResponse t)); newest_is_read.
Qed.

Lemma only_newest_message_is_read_witness :
  V.utterances
    (V.processVoiceCommand (fun _ => ""%string)
       {| V.now := 0; V.random := 0; V.recent_predictions := V.Resolved [] |}
       "give me health tips" V.fresh)
  = ["Executing: Receive personalized health recommendations"%string].
Proof.
  refine (proj2 (only_newest_message_is_read (fun _ => ""%string)
            {| V.now := 0; V.random := 0; V.recent_predictions := V.Resolved [] |}
            "give me health tips" V.fresh eq_refl)
            (nth 6 V.voiceCommands
               {| V.command := ""; V.action := V.ExplainLatestResults;
                  V.description := "" |}) _ _).
  - vm_compute. reflexivity.
  - left. reflexivity.
Defined.

Ltac split_false :=
  repeat match goal with
         | H : (_ || _) = false |- _ => apply orb_false_iff in H as [? ?]
         end.

Ltac use_false :=
  repeat match goal with
         | H : JS.includes _ _ = false |- _ => rewrite H; clear H
         end.

(** The emergency answer goes with the queries that reach the emergency
    group, and with no other. *)
Lemma emergency_group_iff (q : string) :
  V.suggested_actions (V.getAIHealthCoachResponse q) = ["show_emergency_info"%string]
  <-> V.reaches_emergency q = true.
Proof.
  { unfold V.suggested_actions, V.getAIHealthCoachResponse, V.reaches_emergency,
      V.earlier_keywords, V.emergency_keywords.
    cbv zeta. cbn [forallb existsb].
    destruct (JS.includes _ "heart attack" || JS.includes _ "heart risk") eqn:C1.
    { split; [discriminate|]. intros R. exfalso.
      apply orb_true_iff in C1 as [C | C]; rewrite C in R; cbn in R;
        try discriminate; destruct (JS.includes _ "heart attack"); discriminate. }
    destruct (JS.includes _ "stroke" || JS.includes _ "brain") eqn:C2.
    { split; [discriminate|]. intros R. exfalso. split_false.
      apply orb_true_iff in C2 as [C | C]; rewrite C in R;
        repeat match goal with
               | H : JS.includes _ _ = false |- _ => rewrite H in R; clear H
               end;
        cbn in R; try discriminate; destruct (JS.includes _ "stroke"); discriminate. }
    destruct (JS.includes _ "tips" || JS.includes _ "advice" || JS.includes _ "help me")
      eqn:C3.
    { split; [discriminate|]. intros R. exfalso. split_false.
      repeat match goal with
             | H : JS.includes _ _ = false |- _ => rewrite H in R; clear H
             end.
      destruct (JS.includes _ "tips"), (JS.includes _ "advice"), (JS.includes _ "help me");
        cbn in C3, R; discriminate. }
    destruct (JS.includes _ "explain" || JS.includes _ "what does" || JS.includes _ "mean")
      eqn:C4.
    { split; [discriminate|]. intros R. exfalso. split_false.
      repeat match goal with
             | H : JS.includes _ _ = false |- _ => rewrite H in R; clear H
             end.
      destruct (JS.includes _ "explain"), (JS.includes _ "what does"),
        (JS.includes _ "mean"); cbn in C4, R; discriminate. }
    destruct (JS.includes _ "improve" || JS.includes _ "better"
              || JS.includes _ "reduce risk") eqn:C5.
    { split; [discriminate|]. intros R. exfalso. split_false.
      repeat match goal with
             | H : JS.includes _ _ = false |- _ => rewrite H in R; clear H
             end.
      destruct (JS.includes _ "improve"), (JS.includes _ "better"),
        (JS.includes _ "reduce risk"); cbn in C5, R; discriminate. }
    split_false.
    destruct (JS.includes _ "emergency" || JS.includes _ "urgent"
              || JS.includes _ "call doctor") eqn:C6.
    { split; [intros _ | reflexivity]. use_false. cbn [negb andb].
      now rewrite orb_false_r, orb_assoc. }
    split.
    - destruct (JS.includes _ "help" || JS.includes _ "commands"); discriminate.
    - use_false. cbn [negb andb]. rewrite orb_false_r, orb_assoc, C6. discriminate. }
Qed.

(** X15.  The coach gives its emergency answer exactly to the queries
    that hold an emergency keyword and none of the keywords of the five
    groups tried before: a query with [help me] (or [heart attack],
    [stroke], [advice], [better] ...) never gets the emergency answer,
    whatever else it says. *)
Theorem emergency_answer_iff (q : string) :
  (V.suggested_actions (V.getAIHealthCoachResponse q) = ["show_emergency_info"%string]
   <-> V.reaches_emergency q = true) /\
  (forall k, In k V.earlier_keywords ->
     JS.includes (JS.toLowerCase q) k = true ->
     ~ In "show_emergency_info"%string
         (V.suggested_actions (V.getAIHealthCoachResponse q))).
Proof.
  pose proof (emergency_group_iff q) as Iff.
  split; [exact Iff|].
  intros k Hin Hk A.
  assert (R : V.reaches_emergency q = true).
  { apply Iff. unfold V.suggested_actions in *.
    destruct (V.AIResponse.action (V.getAIHealthCoachResponse q)) as [a|].
    - destruct A as [<- | []]. reflexivity.
    - destruct A. }
  unfold V.reaches_emergency in R. apply andb_true_iff in R as [R _].
  rewrite forallb_forall in R. specialize (R k Hin). rewrite Hk in R. discriminate.
Qed.

Lemma emergency_answer_iff_witness :
  ~ In "show_emergency_info"%string
      (V.suggested_actions
         (V.getAIHealthCoachResponse "Help me, this is an emergency")).
Proof.
  refine (proj2 (emergency_answer_iff "Help me, this is an emergency") "help me"%string _ _).
  - unfold V.earlier_keywords. cbn [In]. auto 10.
  - vm_compute. reflexivity.
Defined.

Lemma heart_answer_iff (q : string) :
  V.suggested_actions (V.getAIHealthCoachResponse q) = ["show_heart_attack_details"%string]
  <-> existsb (JS.includes (JS.toLowerCase q)) V.heart_keywords = true.
Proof.
  unfold V.suggested_actions, V.getAIHealthCoachResponse, V.heart_keywords.
  cbv zeta. cbn [existsb]. rewrite orb_false_r.
  destruct (JS.includes _ "heart attack" || JS.includes _ "heart risk");
    [split; reflexivity|].
  split; [|discriminate].
  repeat match goal with
         | |- context [if ?b then _ else _] => destruct b
         end; discriminate.
Qed.

(** X16.  What the timer of a reply does when it goes off, two seconds
    after a query that went to the coach: it opens the risk monitor when
    the query spoke of the heart attack or heart risk, it shows the
    emergency information (call 911) when the query got the emergency
    answer, and in every other case it does nothing at all; the
    conversation is not touched. *)
Theorem reply_timer_effects (env : V.Env) (q : string) (st : V.State) :
  V.timers st = [] ->
  let st1 := V.handleAIQuery env q st in
  let st2 := V.fireTimer st1 in
  V.messages st2 = V.messages st1 /\
  V.messages st1 = V.messages st ++ [V.AIResponse.message (V.getAIHealthCoachResponse q)] /\
  V.timers st2 = [] /\
  V.route st2 =
  V.route st ++ (if existsb (JS.includes (JS.toLowerCase q)) V.heart_keywords
                 then ["/risk-monitor"%string] else []) /\
  V.alerts st2 =
  V.alerts st ++ (if V.reaches_emergency q
                  then [("Emergency Information"%string,
                         "For immediate help: Call 911 (US) or your local emergency number. For non-urgent questions, contact your healthcare provider."%string)]
                  else []).
Proof.
  intros T. cbv zeta.
  pose proof (heart_answer_iff q) as HI.
  pose proof (emergency_group_iff q) as EI.
  unfold V.suggested_actions in HI, EI.
  unfold V.fireTimer, V.handleAIQuery.
  destruct (V.AIResponse.action (V.getAIHealthCoachResponse q)) as [a|].
  - assert (T1 : V.timers
                   (V.setTimeout a
                      (V.setAiResponse (V.getAIHealthCoachResponse q)
                         (V.speak (V.AIResponse.message (V.getAIHealthCoachResponse q))
                            (V.addToConversation env V.ai
                               (V.AIResponse.message (V.getAIHealthCoachResponse q)) st))))
                 = [a]).
    { unfold V.speak. destruct (V.synth _); cbn; now rewrite T. }
    rewrite T1. unfold V.executeAIAction.
    destruct (String.eqb_spec a "show_heart_attack_details") as [-> | N1].
    + rewrite (proj1 HI eq_refl).
      assert (R : V.reaches_emergency q = false).
      { destruct (V.reaches_emergency q); [|reflexivity].
        specialize (proj2 EI eq_refl). discriminate. }
      rewrite R. unfold V.speak, V.messages.
      destruct (V.synth _); cbn; rewrite ?map_app, ?app_nil_r; auto.
    + assert (H : existsb (JS.includes (JS.toLowerCase q)) V.heart_keywords = false).
      { destruct (existsb _ V.heart_keywords); [|reflexivity].
        specialize (proj2 HI eq_refl). intros [= E]. congruence. }
      rewrite H.
      destruct (String.eqb_spec a "show_emergency_info") as [-> | N2].
      * rewrite (proj1 EI eq_refl). unfold V.speak, V.messages.
        destruct (V.synth _); cbn; rewrite ?map_app, ?app_nil_r; auto.
      * assert (R : V.reaches_emergency q = false).
        { destruct (V.reaches_emergency q); [|reflexivity].
          specialize (proj2 EI eq_refl). intros [= E]. congruence. }
        rewrite R. unfold V.speak, V.messages.
        destruct (V.synth _); cbn; rewrite ?map_app, ?app_nil_r; auto.
  - assert (H : existsb (JS.includes (JS.toLowerCase q)) V.heart_keywords = false).
    { destruct (existsb _ V.heart_keywords); [|reflexivity].
      specialize (proj2 HI eq_refl). discriminate. }
    assert (R : V.reaches_emergency q = false).
    { destruct (V.reaches_emergency q); [|reflexivity].
      specialize (proj2 EI eq_refl). discriminate. }
    rewrite H, R.
    assert (T1 : V.timers
                   (V.setAiResponse (V.getAIHealthCoachResponse q)
                      (V.speak (V.AIResponse.message (V.getAIHealthCoachResponse q))
                         (V.addToConversation env V.ai
                            (V.AIResponse.message (V.getAIHealthCoachResponse q)) st)))
                 = []).
    { unfold V.speak. destruct (V.synth _); cbn; exact T. }
    rewrite T1. unfold V.speak, V.messages.
    destruct (V.synth _); cbn; rewrite ?map_app, ?app_nil_r; auto.
Qed.

Lemma reply_timer_effects_witness :
  V.alerts
    (V.fireTimer
       (V.handleAIQuery
          {| V.now := 0; V.random := 0; V.recent_predictions := V.Resolved [] |}
          "this is urgent" V.fresh))
  = [("Emergency Information"%string,
      "For immediate help: Call 911 (US) or your local emergency number. For non-urgent questions, contact your healthcare provider."%string)] /\
  V.route
    (V.fireTimer
       (V.handleAIQuery
          {| V.now := 0; V.random := 0; V.recent_predictions := V.Resolved [] |}
          "this is urgent" V.fresh))
  = [].
Proof.
  destruct (reply_timer_effects
              {| V.now := 0; V.random := 0; V.recent_predictions := V.Resolved [] |}
              "this is urgent" V.fresh eq_refl) as [_ [_ [_ [R A]]]].
  split.
  - rewrite A. vm_compute. reflexivity.
  - rewrite R. vm_compute. reflexivity.
Defined.

(** X17.  [getLatestRisk] tells the user of the latest risk only when the
    newest prediction has an entry for the risk asked and the entry has a
    level.  When the fetch is rejected, the prediction has no result or
    the entry has no level, the error is caught: one line goes to the
    console and the user is told nothing.  In no case are the route, the
    alerts, the stored reply or the timers touched. *)
Theorem getLatestRisk_failures_are_silent (percent : Q -> string) (env : V.Env)
    (riskType : string) (st : V.State) :
  let st' := V.getLatestRisk percent env riskType st in
  V.route st' = V.route st /\ V.alerts st' = V.alerts st /\
  V.aiResponse st' = V.aiResponse st /\ V.timers st' = V.timers st /\
  (V.getLatestRisk_try percent env riskType st = None <->
   V.recent_predictions env = V.Rejected \/
   exists latest rest,
     V.recent_predictions env = V.Resolved (latest :: rest) /\
     (V.prediction_result latest = None \/
      exists risks risk,
        V.prediction_result latest = Some risks /\
        V.lookup_risk riskType risks = Some risk /\ V.risk_level risk = None)) /\
  (V.getLatestRisk_try percent env riskType st = None ->
   V.messages st' = V.messages st /\ V.utterances st' = V.utterances st /\
   V.console st' = V.console st ++ ["Error getting latest risk:"%string]) /\
  (V.messages st' <> V.messages st ->
   exists latest rest risks risk level,
     V.recent_predictions env = V.Resolved (latest :: rest) /\
     V.prediction_result latest = Some risks /\
     V.lookup_risk riskType risks = Some risk /\
     V.risk_level risk = Some level /\
     V.messages st' =
     V.messages st
     ++ [("Your " ++ JS.replace riskType "_" " " ++ " risk is currently "
          ++ JS.toLowerCase level ++ " at " ++ percent (V.probability risk) ++ "%.")%string]).
Proof.
  cbv zeta. unfold V.getLatestRisk, V.getLatestRisk_try.
  destruct (V.recent_predictions env) as [|[|latest rest]] eqn:F.
  - repeat split; try reflexivity; auto.
    intros N. contradiction N. reflexivity.
  - repeat split; try reflexivity; try discriminate.
    + intros [H | [l [r [H _]]]]; discriminate H.
    + intros N. contradiction N. reflexivity.
  - destruct (V.prediction_result latest) as [risks|] eqn:P.
    + destruct (V.lookup_risk riskType risks) as [risk|] eqn:L.
      * destruct (V.risk_level risk) as [level|] eqn:Lv.
        -- repeat split;
             try (unfold V.speak; destruct (V.synth _); reflexivity);
             try discriminate.
           ++ intros [H | [l [r [H [H' | [rs [rk [H1 [H2 H3]]]]]]]]];
                try discriminate H; injection H as <- <-; congruence.
           ++ intros _. exists latest, rest, risks, risk, level.
              repeat split; auto.
              unfold V.speak, V.messages.
              destruct (V.synth _); cbn; now rewrite map_app.
        -- repeat split; try reflexivity.
           ++ intros _. right. exists latest, rest. split; [reflexivity|].
              right. exists risks, risk. auto.
           ++ intros N. contradiction N. reflexivity.
      * repeat split; try reflexivity; try discriminate.
        -- intros [H | [l [r [H [H' | [rs [rk [H1 [H2 H3]]]]]]]]];
             try discriminate H; injection H as <- <-; congruence.
        -- intros N. contradiction N. reflexivity.
    + repeat split; try reflexivity.
      * intros _. right. exists latest, rest. auto.
      * intros N. contradiction N. reflexivity.
Qed.

Lemma getLatestRisk_failures_are_silent_witness :
  let env := {| V.now := 0; V.random := 0; V.recent_predictions := V.Rejected |} in
  V.messages (V.getLatestRisk (fun _ => ""%string) env "heart_attack" V.fresh) = [] /\
  V.console (V.getLatestRisk (fun _ => ""%string) env "heart_attack" V.fresh)
  = ["Error getting latest risk:"%string].
Proof.
  cbv zeta.
  destruct (getLatestRisk_failures_are_silent (fun _ => ""%string)
              {| V.now := 0; V.random := 0; V.recent_predictions := V.Rejected |}
              "heart_attack" V.fresh) as [_ [_ [_ [_ [_ [S _]]]]]].
  destruct (S eq_refl) as [M [_ C]]. split; [exact M | exact C].
Defined.
